(** * gcal_api: credential loading, request dispatch and request building

    A shallow embedding of [scripts/gcal_api.py] (the Google Calendar and
    Tasks command-line client).  Python strings are modelled by [string]
    (one [ascii] per character), Python dictionaries by insertion-ordered
    association lists, the file system by a finite map from paths to
    contents, and the effects of the script (file reads and writes, the
    token refresh, the HTTP call) by a state-and-exception monad over a
    [world] that records every network call in a log. *)

From Stdlib Require Import String Ascii ZArith List Bool Lia.
From stdpp Require Import base option gmap strings pretty.
Import ListNotations.
Local Open Scope string_scope.
Local Open Scope Z_scope.

(** ** Python strings *)

Module PyStr.

(** [s.startswith(p)] *)
Definition startswith (s p : string) : bool := String.prefix p s.

(** [needle in hay] for strings: [needle] occurs as a substring. *)
Fixpoint contains (needle hay : string) : bool :=
  String.prefix needle hay ||
  match hay with
  | EmptyString => false
  | String _ rest => contains needle rest
  end.

(** [s[n:]] *)
Fixpoint slice_from (n : nat) (s : string) : string :=
  match n, s with
  | O, _ => s
  | S _, EmptyString => EmptyString
  | S k, String _ rest => slice_from k rest
  end.

(** Truth value of a string: the empty string is false. *)
Definition nonempty (s : string) : bool :=
  match s with
  | EmptyString => false
  | String _ _ => true
  end.

(** Truth value of an [Optional[str]]: [None] and [""] are false. *)
Definition truthy (o : option string) : bool :=
  match o with
  | Some s => nonempty s
  | None => false
  end.

(** [s.split(sep)] for a one-character separator: the pieces between the
    occurrences of [sep], empty pieces included. *)
Fixpoint split_aux (sep : ascii) (cur : string) (s : string) : list string :=
  match s with
  | EmptyString => [String.rev cur]
  | String c rest =>
      if Ascii.eqb c sep then String.rev cur :: split_aux sep EmptyString rest
      else split_aux sep (String c cur) rest
  end.

Definition split (sep : ascii) (s : string) : list string :=
  split_aux sep EmptyString s.

End PyStr.

Import PyStr.

(** ** Python values that travel as JSON

    [json.loads] maps JSON [null] to Python's [None]; the same [None] is what
    [load_json_input] returns when nothing was supplied.  [JNull] stands for
    that one value. *)

#[local] Set Warnings "-register-all".

Inductive json : Type :=
| JNull
| JBool (b : bool)
| JInt (n : Z)
| JFloat (repr : string)
| JStr (s : string)
| JArr (items : list json)
| JObj (fields : list (string * json)).

#[local] Set Warnings "+register-all".

Abbreviation dict := (list (string * json)).

(** [d[k] = v]: replaces the value of an existing key in place, appends a
    new key at the end. *)
Fixpoint dict_set (d : dict) (k : string) (v : json) : dict :=
  match d with
  | [] => [(k, v)]
  | (k', v') :: rest =>
      if String.eqb k' k then (k', v) :: rest
      else (k', v') :: dict_set rest k v
  end.

(** [d.get(k)] *)
Fixpoint dict_get (d : dict) (k : string) : option json :=
  match d with
  | [] => None
  | (k', v') :: rest => if String.eqb k' k then Some v' else dict_get rest k
  end.

Definition keys (d : dict) : list string := map fst d.

(** The fields of a value that is a dictionary (no fields otherwise). *)
Definition fields_of (j : json) : dict :=
  match j with
  | JObj d => d
  | _ => []
  end.

(** An [Optional[str]] as a Python value. *)
Definition of_opt_str (o : option string) : json :=
  match o with
  | Some s => JStr s
  | None => JNull
  end.

(** [x is None] *)
Definition is_None (j : json) : bool :=
  match j with
  | JNull => true
  | _ => false
  end.

(** ** [time_object] *)

(** The test of line 81 on the string alone: no ["Z"] and no ["+"] anywhere,
    no ["-"] from index 10 on. *)
Definition lacks_offset (value : string) : bool :=
  negb (contains "Z" value) && negb (contains "+" value)
  && negb (contains "-" (slice_from 10 value)).

Definition time_object (value : string) (time_zone : option string) : json :=
  if contains "T" value then
    let obj := [("dateTime", JStr value)] in
    let obj :=
      if truthy time_zone && lacks_offset value
      then dict_set obj "timeZone" (of_opt_str time_zone)
      else obj in
    JObj obj
  else JObj [("date", JStr value)].

(** Whether the encoded time carries a [timeZone] field. *)
Definition has_time_zone (j : json) : bool :=
  match dict_get (fields_of j) "timeZone" with
  | Some _ => true
  | None => false
  end.

(** ** Exceptions, collaborators and the world *)

Inductive exn : Type :=
| FileNotFoundError (msg : string)
| ValueError (msg : string)
| RuntimeError (msg : string)
| JSONDecodeError (msg : string)
| RefreshError (msg : string)
| TransportError (msg : string).

(** A usage error of the script is a plain [ValueError]. *)
Definition is_usage_error (e : exn) : bool :=
  match e with
  | ValueError _ => true
  | _ => false
  end.

(** The part of [google.oauth2.credentials.Credentials] the script reads. *)
Record Credentials : Type := {
  token : option string;
  refresh_token : option string;
  expiry : option Z;
  granted_scopes : list string
}.

Record AuthorizedSession : Type := { credentials : Credentials }.

(** The part of a [requests] response the script reads; [content_type] is
    the [Content-Type] header when the response has one. *)
Record Response : Type := {
  status_code : Z;
  content_type : option string;
  text : string
}.

(** What the script takes from its libraries and from the network. *)
Record Collaborators : Type := {
  (* pathlib: [Path(p).expanduser().resolve()] *)
  resolve : string -> string;
  (* google-auth: the record held by a token file, read with the scopes *)
  parse_credentials : string -> list string -> exn + Credentials;
  (* google-auth: the [expired] property at the time of the load *)
  expired : Credentials -> bool;
  (* the identity provider's answer to a refresh *)
  token_endpoint : Credentials -> exn + Credentials;
  (* google-auth: [creds.to_json()] *)
  to_json : Credentials -> string;
  (* the server's answer to [session.request(method, url, params, json)] *)
  http : AuthorizedSession -> string -> string -> json -> json -> exn + Response;
  (* json: [json.loads] and [json.dumps(_, indent=2)] *)
  json_loads : string -> exn + json;
  json_dumps : json -> string
}.

Inductive event : Type :=
| FileWrite (path content : string)
| TokenRefresh (creds : Credentials)
| HttpCall (method url : string) (params body : json).

Definition is_network_call (e : event) : bool :=
  match e with
  | FileWrite _ _ => false
  | TokenRefresh _ | HttpCall _ _ _ _ => true
  end.

Definition CALENDAR_BASE_URL : string := "https://www.googleapis.com/calendar/v3".
Definition TASKS_BASE_URL : string := "https://tasks.googleapis.com/tasks/v1".

Record world : Type := {
  files : gmap string string;
  log : list event
}.

Definition emit (e : event) (w : world) : world :=
  {| files := files w; log := log w ++ [e] |}.

(** ** The monad of the script: state, and exceptions that keep the state *)

Definition M (A : Type) : Type := world -> (exn + A) * world.

Definition ret {A : Type} (a : A) : M A := fun w => (inr a, w).

Definition raise {A : Type} (e : exn) : M A := fun w => (inl e, w).

Definition bind {A B : Type} (c : M A) (k : A -> M B) : M B :=
  fun w =>
    match c w with
    | (inr a, w') => k a w'
    | (inl e, w') => (inl e, w')
    end.

Definition lift {A : Type} (r : exn + A) : M A := fun w => (r, w).

Declare Scope py_scope.
Delimit Scope py_scope with py.
Notation "x <- c ;; k" := (bind c (fun x => k))
  (at level 100, c at next level, right associativity) : py_scope.
Notation "c ;; k" := (bind c (fun _ => k))
  (at level 100, right associativity) : py_scope.
Local Open Scope py_scope.

(** The network calls a world has on its log, oldest first. *)
Definition network_calls (w : world) : list event :=
  filter (fun e => is_network_call e = true) (log w).

Section Script.

Variable env : Collaborators.

(** *** Files *)

Definition path_exists (p : string) : M bool :=
  fun w => (inr (bool_decide (is_Some (files w !! p))), w).

Definition read_text (p : string) : M string :=
  fun w =>
    match files w !! p with
    | Some s => (inr s, w)
    | None => (inl (FileNotFoundError p), w)
    end.

Definition write_text (p s : string) : M unit :=
  fun w => (inr tt, {| files := <[p := s]> (files w);
                       log := log w ++ [FileWrite p s] |}).

(** *** Network *)

Definition refresh (creds : Credentials) : M Credentials :=
  fun w => (token_endpoint env creds, emit (TokenRefresh creds) w).

Definition session_request (session : AuthorizedSession)
    (method url : string) (params body : json) : M Response :=
  fun w => (http env session method url params body,
            emit (HttpCall method url params body) w).

(** *** [load_json_input] (lines 18-26) *)

Definition load_json_input (raw path : option string) : M json :=
  if truthy raw && truthy path then
    raise (ValueError
             "Use only one of --body/--params or --body-file/--params-file")
  else if truthy path then
    content <- read_text (default "" path) ;;
    lift (json_loads env content)
  else if truthy raw then
    lift (json_loads env (default "" raw))
  else ret JNull.

(** *** [load_credentials] (lines 29-37) and [session_from_token] *)

Definition from_authorized_user_file (p : string) (scopes : list string)
  : M Credentials :=
  content <- read_text p ;;
  lift (parse_credentials env content scopes).

Definition load_credentials (token_path : string) (scopes : list string)
  : M Credentials :=
  let resolved := resolve env token_path in
  found <- path_exists resolved ;;
  if negb found then
    raise (FileNotFoundError ("Token file not found: " +:+ resolved))
  else
    creds <- from_authorized_user_file resolved scopes ;;
    if expired env creds && truthy (refresh_token creds) then
      creds <- refresh creds ;;
      write_text resolved (to_json env creds) ;;
      ret creds
    else ret creds.

Definition session_from_token (token_path : string) (scopes : list string)
  : M AuthorizedSession :=
  creds <- load_credentials token_path scopes ;;
  ret {| credentials := creds |}.

(** *** [request] (lines 45-75) *)

(** Lines 53-58: the URL the call goes to. *)
Definition normalize_path (path : string) : string :=
  if negb (startswith path "/") then "/" +:+ path else path.

Definition has_scheme (path : string) : bool :=
  startswith path "http://" || startswith path "https://".

Definition resolve_url (path base_url : string) : string :=
  if has_scheme path then path
  else base_url +:+ normalize_path path.

Definition is_json (content_type : string) : bool :=
  contains "application/json" content_type.

Definition response_json (response : Response) : M json :=
  lift (json_loads env (text response)).

Definition http_error_message (status : Z) (error_payload : json) : string :=
  "HTTP " +:+ pretty status +:+ ": " +:+ json_dumps env error_payload.

Definition request (session : AuthorizedSession) (method path : string)
    (params body : json) (base_url : string) : M json :=
  let url := resolve_url path base_url in
  response <- session_request session method url params body ;;
  let content_type := default "" (content_type response) in
  if 400 <=? status_code response then
    error_payload <-
      (if is_json content_type then response_json response
       else ret (JObj [("error", JStr (text response))])) ;;
    raise (RuntimeError
             (http_error_message (status_code response) error_payload))
  else if status_code response =? 204 then
    ret (JObj [("status", JStr "deleted")])
  else if is_json content_type then response_json response
  else ret (JObj [("text", JStr (text response))]).

End Script.

(** A path that begins with one slash and not with two. *)
Definition one_leading_slash (p : string) : bool :=
  startswith p "/" && negb (startswith p "//").

(** The world after the one HTTP call of [request]. *)
Definition after_call (method path : string) (params body : json)
    (base_url : string) (w : world) : world :=
  emit (HttpCall method (resolve_url path base_url) params body) w.

(** ** Commands *)

(** The [argparse.Namespace] of [create-event] (lines 434-448): options
    without a value are [None], [--recurrence] collects a list. *)
Module Args.

Record Namespace : Type := {
  token : string;
  scopes : list string;
  calendar_id : string;
  summary : option string;
  start : option string;
  end_ : option string;
  time_zone : option string;
  location : option string;
  description : option string;
  attendees : option string;
  recurrence : list string;
  send_updates : option string;
  body : option string;
  body_file : option string
}.

(** The same command line with another [--body]. *)
Definition with_body (b : option string) (a : Namespace) : Namespace :=
  {| token := token a; scopes := scopes a; calendar_id := calendar_id a;
     summary := summary a; start := start a; end_ := end_ a;
     time_zone := time_zone a; location := location a;
     description := description a; attendees := attendees a;
     recurrence := recurrence a; send_updates := send_updates a;
     body := b; body_file := body_file a |}.

End Args.

(** Truth value of a list. *)
Definition nonempty_list {A : Type} (l : list A) : bool :=
  match l with
  | [] => false
  | _ :: _ => true
  end.

(** [[{"email": email} for email in s.split(",") if email]] *)
Definition attendee_list (s : string) : json :=
  JArr (map (fun email => JObj [("email", JStr email)])
            (filter (fun email => nonempty email = true) (split "," s))).

(** Lines 172-184 of [cmd_create_event]: the body assembled from the
    structured fields. *)
Definition event_body_from_args (args : Args.Namespace) : dict :=
  let body :=
    [("summary", of_opt_str (Args.summary args));
     ("start", time_object (default "" (Args.start args)) (Args.time_zone args));
     ("end", time_object (default "" (Args.end_ args)) (Args.time_zone args))] in
  let body :=
    if truthy (Args.location args)
    then dict_set body "location" (of_opt_str (Args.location args)) else body in
  let body :=
    if truthy (Args.description args)
    then dict_set body "description" (of_opt_str (Args.description args))
    else body in
  let body :=
    if truthy (Args.attendees args)
    then dict_set body "attendees"
           (attendee_list (default "" (Args.attendees args)))
    else body in
  let body :=
    if nonempty_list (Args.recurrence args)
    then dict_set body "recurrence" (JArr (map JStr (Args.recurrence args)))
    else body in
  body.

Section Commands.

Variable env : Collaborators.

Definition events_path (args : Args.Namespace) : string :=
  "/calendars/" +:+ Args.calendar_id args +:+ "/events".

Definition send_updates_params (args : Args.Namespace) : json :=
  if truthy (Args.send_updates args)
  then JObj [("sendUpdates", of_opt_str (Args.send_updates args))]
  else JNull.

(** Lines 169-184: the body the command goes on with, given what
    [load_json_input] returned. *)
Definition create_event_body (args : Args.Namespace) (body : json) : M json :=
  if is_None body then
    if negb (truthy (Args.summary args)) || negb (truthy (Args.start args))
       || negb (truthy (Args.end_ args))
    then raise (ValueError
           "--summary, --start, and --end are required unless --body is provided")
    else ret (JObj (event_body_from_args args))
  else ret body.

Definition cmd_create_event (args : Args.Namespace) : M json :=
  session <- session_from_token env (Args.token args) (Args.scopes args) ;;
  body <- load_json_input env (Args.body args) (Args.body_file args) ;;
  body <- create_event_body args body ;;
  let path := events_path args in
  let params := send_updates_params args in
  request env session "POST" path params body CALENDAR_BASE_URL.

End Commands.


(** ** A small concrete setting

    One clock reading, four token files, a server that answers by URL, and a
    JSON reader that knows the two texts the examples need. *)
Module Toy.

Definition live : Credentials :=
  {| token := Some "ya29.live"; refresh_token := Some "1//rt";
     expiry := Some 5000; granted_scopes := [] |}.

Definition stale : Credentials :=
  {| token := Some "ya29.stale"; refresh_token := Some "1//rt";
     expiry := Some 1000; granted_scopes := [] |}.

Definition dead : Credentials :=
  {| token := Some "ya29.dead"; refresh_token := None;
     expiry := Some 1000; granted_scopes := [] |}.

Definition renewed : Credentials :=
  {| token := Some "ya29.renewed"; refresh_token := Some "1//rt";
     expiry := Some 9000; granted_scopes := [] |}.

Definition clock : Z := 3000.

Definition parse (content : string) (scopes : list string)
  : exn + Credentials :=
  if String.eqb content "ya29.live" then inr live
  else if String.eqb content "ya29.stale" then inr stale
  else if String.eqb content "ya29.dead" then inr dead
  else if String.eqb content "ya29.renewed" then inr renewed
  else inl (ValueError "not a token file").

Definition loads (s : string) : exn + json :=
  if String.eqb s "null" then inr JNull
  else if String.eqb s "{}" then inr (JObj [])
  else inl (JSONDecodeError s).

Definition dumps (j : json) : string :=
  match j with
  | JNull => "null"
  | JObj [] => "{}"
  | JObj [(k, JStr v)] => "{" +:+ k +:+ ": " +:+ v +:+ "}"
  | _ => "..."
  end.

Definition server (session : AuthorizedSession) (method url : string)
    (params body : json) : exn + Response :=
  if contains "/missing" url then
    inr {| status_code := 404;
           content_type := Some "application/json; charset=UTF-8";
           text := "{}" |}
  else if contains "/broken" url then
    inr {| status_code := 500; content_type := Some "text/plain";
           text := "boom" |}
  else if String.eqb method "DELETE" then
    inr {| status_code := 204; content_type := None; text := "gone" |}
  else
    inr {| status_code := 200;
           content_type := Some "application/json; charset=UTF-8";
           text := "{}" |}.

Definition env : Collaborators :=
  {| resolve := fun p => p;
     parse_credentials := parse;
     expired := fun c =>
       match expiry c with
       | Some e => e <=? clock
       | None => false
       end;
     token_endpoint := fun c =>
       if truthy (refresh_token c) then inr renewed
       else inl (RefreshError "no refresh token");
     to_json := fun c => default "" (token c);
     http := server;
     json_loads := loads;
     json_dumps := dumps |}.

Definition disk : gmap string string :=
  <["/tok/live" := "ya29.live"]>
    (<["/tok/stale" := "ya29.stale"]>
       (<["/tok/dead" := "ya29.dead"]>
          (<["/in/null.json" := "null"]> ∅))).

Definition world0 : world := {| files := disk; log := [] |}.

Definition session : AuthorizedSession := {| credentials := live |}.

(** [create-event --calendar-id primary] and nothing else. *)
Definition bare (token_path : string) : Args.Namespace :=
  {| Args.token := token_path; Args.scopes := [];
     Args.calendar_id := "primary";
     Args.summary := None; Args.start := None; Args.end_ := None;
     Args.time_zone := None; Args.location := None;
     Args.description := None; Args.attendees := None;
     Args.recurrence := []; Args.send_updates := None;
     Args.body := None; Args.body_file := None |}.

(** A complete structured event with one optional field. *)
Definition standup (token_path : string) : Args.Namespace :=
  {| Args.token := token_path; Args.scopes := [];
     Args.calendar_id := "primary";
     Args.summary := Some "Standup";
     Args.start := Some "2024-01-01T10:00:00";
     Args.end_ := Some "2024-01-01T10:15:00";
     Args.time_zone := Some "Europe/Rome"; Args.location := None;
     Args.description := None; Args.attendees := Some "a@x.org,,b@x.org";
     Args.recurrence := []; Args.send_updates := None;
     Args.body := None; Args.body_file := None |}.

End Toy.

(** * The rest of the script *)

(** ** [str.strip] and [str.lower]

    On the characters a [string] holds (code points below 256): the white
    space of [str.isspace], and the lower case of the letters [A]-[Z] and of
    the accented capitals [U+00C0]-[U+00DE] but the multiplication sign. *)
Module PyCase.

Definition is_space (c : ascii) : bool :=
  let n := N_of_ascii c in
  ((9 <=? n) && (n <=? 13) || (28 <=? n) && (n <=? 32)
   || (n =? 133) || (n =? 160))%N.

Definition lower_char (c : ascii) : ascii :=
  let n := N_of_ascii c in
  if ((65 <=? n) && (n <=? 90)
      || (192 <=? n) && (n <=? 222) && negb (n =? 215))%N
  then ascii_of_N (n + 32) else c.

Fixpoint lower (s : string) : string :=
  match s with
  | EmptyString => EmptyString
  | String c rest => String (lower_char c) (lower rest)
  end.

Fixpoint lstrip (s : string) : string :=
  match s with
  | EmptyString => EmptyString
  | String c rest => if is_space c then lstrip rest else s
  end.

Definition rstrip (s : string) : string := String.rev (lstrip (String.rev s)).

Definition strip (s : string) : string := rstrip (lstrip s).

(** A string of white space only, the empty string included. *)
Fixpoint blank (s : string) : bool :=
  match s with
  | EmptyString => true
  | String c rest => is_space c && blank rest
  end.

End PyCase.

Import PyCase.

(** ** [parse_bool] (lines 87-93) *)

Inductive argparse_error : Type :=
| ArgumentTypeError (msg : string).

(** [x in {...}] for a set of strings. *)
Definition among (x : string) (words : list string) : bool :=
  existsb (String.eqb x) words.

Definition parse_bool (value : string) : argparse_error + bool :=
  let normalized := lower (strip value) in
  if among normalized ["true"; "1"; "yes"; "y"] then inr true
  else if among normalized ["false"; "0"; "no"; "n"] then inr false
  else inl (ArgumentTypeError "Expected a boolean value (true/false).").

(** ** The other namespaces *)

(** [update-event] (lines 450-465): the options of [create-event] and
    [--event-id]. *)
Module UpdateArgs.

Record Namespace : Type := {
  event : Args.Namespace;
  event_id : string
}.

End UpdateArgs.

(** [delete-event] (lines 467-472). *)
Module DeleteArgs.

Record Namespace : Type := {
  token : string;
  scopes : list string;
  calendar_id : string;
  event_id : string;
  send_updates : option string
}.

End DeleteArgs.

(** [freebusy] (lines 474-480). *)
Module FreeBusyArgs.

Record Namespace : Type := {
  token : string;
  scopes : list string;
  calendars : string;
  time_min : string;
  time_max : string;
  time_zone : option string
}.

End FreeBusyArgs.

(** The task and task-list commands (lines 495-564); each command reads the
    options its parser defines. *)
Module TaskArgs.

Record Namespace : Type := {
  token : string;
  scopes : list string;
  tasklist : string;
  task_id : string;
  title : option string;
  notes : option string;
  due : option string;
  status : option string;
  completed : option string;
  parent : option string;
  previous : option string;
  body : option string;
  body_file : option string
}.

End TaskArgs.

(** [call] (lines 396-404). *)
Module CallArgs.

Record Namespace : Type := {
  token : string;
  scopes : list string;
  method : string;
  path : string;
  params : option string;
  params_file : option string;
  body : option string;
  body_file : option string
}.

End CallArgs.

(** ** Bodies assembled from structured fields *)

(** [if o: d[k] = v] *)
Definition set_if (o : bool) (k : string) (v : json) (d : dict) : dict :=
  if o then dict_set d k v else d.

(** Lines 195-209 of [cmd_update_event]. *)
Definition update_event_fields (args : Args.Namespace) : dict :=
  let body := [] in
  let body := set_if (truthy (Args.summary args)) "summary"
                (of_opt_str (Args.summary args)) body in
  let body := set_if (truthy (Args.start args)) "start"
                (time_object (default "" (Args.start args))
                   (Args.time_zone args)) body in
  let body := set_if (truthy (Args.end_ args)) "end"
                (time_object (default "" (Args.end_ args))
                   (Args.time_zone args)) body in
  let body := set_if (truthy (Args.location args)) "location"
                (of_opt_str (Args.location args)) body in
  let body := set_if (truthy (Args.description args)) "description"
                (of_opt_str (Args.description args)) body in
  let body := set_if (truthy (Args.attendees args)) "attendees"
                (attendee_list (default "" (Args.attendees args))) body in
  let body := set_if (nonempty_list (Args.recurrence args)) "recurrence"
                (JArr (map JStr (Args.recurrence args))) body in
  body.

(** [task_body_from_args] (lines 287-299). *)
Definition task_body_from_args (args : TaskArgs.Namespace) : dict :=
  let body := [] in
  let body := set_if (truthy (TaskArgs.title args)) "title"
                (of_opt_str (TaskArgs.title args)) body in
  let body := set_if (truthy (TaskArgs.notes args)) "notes"
                (of_opt_str (TaskArgs.notes args)) body in
  let body := set_if (truthy (TaskArgs.due args)) "due"
                (of_opt_str (TaskArgs.due args)) body in
  let body := set_if (truthy (TaskArgs.status args)) "status"
                (of_opt_str (TaskArgs.status args)) body in
  let body := set_if (truthy (TaskArgs.completed args)) "completed"
                (of_opt_str (TaskArgs.completed args)) body in
  body.

(** [[{"id": cal_id} for cal_id in s.split(",") if cal_id]] *)
Definition calendar_items (s : string) : json :=
  JArr (map (fun cal_id => JObj [("id", JStr cal_id)])
            (filter (fun cal_id => nonempty cal_id = true) (split "," s))).

(** [sep.join(pieces)] *)
Fixpoint join (sep : string) (pieces : list string) : string :=
  match pieces with
  | [] => ""
  | [piece] => piece
  | piece :: rest => piece +:+ sep +:+ join sep rest
  end.

(** The items of a value that is a list (none otherwise). *)
Definition items_of (j : json) : list json :=
  match j with
  | JArr items => items
  | _ => []
  end.

(** Lines 228-235 of [cmd_freebusy]. *)
Definition freebusy_body (args : FreeBusyArgs.Namespace) : dict :=
  let body :=
    [("timeMin", JStr (FreeBusyArgs.time_min args));
     ("timeMax", JStr (FreeBusyArgs.time_max args));
     ("items", calendar_items (FreeBusyArgs.calendars args))] in
  set_if (truthy (FreeBusyArgs.time_zone args)) "timeZone"
    (of_opt_str (FreeBusyArgs.time_zone args)) body.

(** Lines 347-351 of [cmd_create_task]. *)
Definition task_position_params (args : TaskArgs.Namespace) : dict :=
  let params := [] in
  let params := set_if (truthy (TaskArgs.parent args)) "parent"
                  (of_opt_str (TaskArgs.parent args)) params in
  let params := set_if (truthy (TaskArgs.previous args)) "previous"
                  (of_opt_str (TaskArgs.previous args)) params in
  params.

Definition event_path (calendar_id event_id : string) : string :=
  "/calendars/" +:+ calendar_id +:+ "/events/" +:+ event_id.

Definition tasks_path (tasklist : string) : string :=
  "/lists/" +:+ tasklist +:+ "/tasks".

Definition task_path (tasklist task_id : string) : string :=
  "/lists/" +:+ tasklist +:+ "/tasks/" +:+ task_id.

Definition tasklist_path (tasklist : string) : string :=
  "/users/@me/lists/" +:+ tasklist.

Definition summary_start_end_required : exn :=
  ValueError
    "--summary, --start, and --end are required unless --body is provided".

(** The override of a command holds [text]: given inline, or in the file
    named by the path with no inline text. *)
Definition supplies (text : string) (raw path : option string) (w : world)
  : Prop :=
  (raw = Some text /\ nonempty text = true /\ truthy path = false)
  \/ (truthy raw = false
      /\ exists p, path = Some p /\ nonempty p = true
                   /\ files w !! p = Some text).

Definition no_update_fields : exn :=
  ValueError "Provide fields to update or pass --body/--body-file".

Definition title_required : exn :=
  ValueError "--title is required unless --body is provided".

Section MoreCommands.

Variable env : Collaborators.

(** [bool(x)] for the float whose text is given, and [str.upper]: taken
    from Python. *)
Variable float_truthy : string -> bool.
Variable upper : string -> string.

(** Truth value of a Python value, as [not body] reads it. *)
Definition py_truth (j : json) : bool :=
  match j with
  | JNull => false
  | JBool b => b
  | JInt n => negb (n =? 0)
  | JFloat repr => float_truthy repr
  | JStr s => nonempty s
  | JArr items => nonempty_list items
  | JObj fields => nonempty_list fields
  end.

(** Lines 194-212 and their likes: the body of an update, given what
    [load_json_input] returned and the assembled fields. *)
Definition update_body (fields : dict) (body : json) : M json :=
  let body := if is_None body then JObj fields else body in
  if negb (py_truth body) then raise no_update_fields else ret body.

Definition cmd_update_event (args : UpdateArgs.Namespace) : M json :=
  let a := UpdateArgs.event args in
  session <- session_from_token env (Args.token a) (Args.scopes a) ;;
  body <- load_json_input env (Args.body a) (Args.body_file a) ;;
  body <- update_body (update_event_fields a) body ;;
  let path := event_path (Args.calendar_id a) (UpdateArgs.event_id args) in
  let params := send_updates_params a in
  request env session "PATCH" path params body CALENDAR_BASE_URL.

Definition cmd_delete_event (args : DeleteArgs.Namespace) : M json :=
  session <- session_from_token env (DeleteArgs.token args)
               (DeleteArgs.scopes args) ;;
  let path := event_path (DeleteArgs.calendar_id args)
                (DeleteArgs.event_id args) in
  let params :=
    if truthy (DeleteArgs.send_updates args)
    then JObj [("sendUpdates", of_opt_str (DeleteArgs.send_updates args))]
    else JNull in
  request env session "DELETE" path params JNull CALENDAR_BASE_URL.

Definition cmd_freebusy (args : FreeBusyArgs.Namespace) : M json :=
  session <- session_from_token env (FreeBusyArgs.token args)
               (FreeBusyArgs.scopes args) ;;
  request env session "POST" "/freeBusy" JNull (JObj (freebusy_body args))
    CALENDAR_BASE_URL.

(** Lines 261-264 and 343-346: the body of a creation that needs a title. *)
Definition titled_body (args : TaskArgs.Namespace) (fields : dict)
    (body : json) : M json :=
  if is_None body then
    if negb (truthy (TaskArgs.title args)) then raise title_required
    else ret (JObj fields)
  else ret body.

Definition cmd_create_tasklist (args : TaskArgs.Namespace) : M json :=
  session <- session_from_token env (TaskArgs.token args)
               (TaskArgs.scopes args) ;;
  body <- load_json_input env (TaskArgs.body args) (TaskArgs.body_file args) ;;
  body <- titled_body args [("title", of_opt_str (TaskArgs.title args))] body ;;
  request env session "POST" "/users/@me/lists" JNull body TASKS_BASE_URL.

Definition cmd_update_tasklist (args : TaskArgs.Namespace) : M json :=
  session <- session_from_token env (TaskArgs.token args)
               (TaskArgs.scopes args) ;;
  body <- load_json_input env (TaskArgs.body args) (TaskArgs.body_file args) ;;
  body <- update_body
            (set_if (truthy (TaskArgs.title args)) "title"
               (of_opt_str (TaskArgs.title args)) []) body ;;
  let path := tasklist_path (TaskArgs.tasklist args) in
  request env session "PATCH" path JNull body TASKS_BASE_URL.

Definition cmd_create_task (args : TaskArgs.Namespace) : M json :=
  session <- session_from_token env (TaskArgs.token args)
               (TaskArgs.scopes args) ;;
  body <- load_json_input env (TaskArgs.body args) (TaskArgs.body_file args) ;;
  body <- titled_body args (task_body_from_args args) body ;;
  let params := JObj (task_position_params args) in
  let path := tasks_path (TaskArgs.tasklist args) in
  request env session "POST" path params body TASKS_BASE_URL.

Definition cmd_update_task (args : TaskArgs.Namespace) : M json :=
  session <- session_from_token env (TaskArgs.token args)
               (TaskArgs.scopes args) ;;
  body <- load_json_input env (TaskArgs.body args) (TaskArgs.body_file args) ;;
  body <- update_body (task_body_from_args args) body ;;
  let path := task_path (TaskArgs.tasklist args) (TaskArgs.task_id args) in
  request env session "PATCH" path JNull body TASKS_BASE_URL.

Definition cmd_call (args : CallArgs.Namespace) : M json :=
  params <- load_json_input env (CallArgs.params args)
              (CallArgs.params_file args) ;;
  body <- load_json_input env (CallArgs.body args) (CallArgs.body_file args) ;;
  session <- session_from_token env (CallArgs.token args)
               (CallArgs.scopes args) ;;
  request env session (upper (CallArgs.method args)) (CallArgs.path args)
    params body CALENDAR_BASE_URL.

End MoreCommands.

(** ** More of the concrete setting *)
Module Desk.

(** Floats whose text is a zero are false. *)
Definition float_truthy (repr : string) : bool :=
  negb (among repr ["0.0"; "-0.0"]).

(** Enough of [str.upper] for method names already in capitals. *)
Definition upper (s : string) : string := s.

(** The setting of [Toy] with an identity provider that refuses every
    refresh and a gateway that answers 502 with a page of HTML announced as
    JSON. *)
Definition flaky : Collaborators :=
  {| resolve := resolve Toy.env;
     parse_credentials := parse_credentials Toy.env;
     expired := expired Toy.env;
     token_endpoint := fun _ => inl (RefreshError "invalid_grant");
     to_json := to_json Toy.env;
     http := fun _ _ _ _ _ =>
       inr {| status_code := 502;
              content_type := Some "application/json";
              text := "<html>" |};
     json_loads := json_loads Toy.env;
     json_dumps := json_dumps Toy.env |}.

Definition rename (token_path : string) : UpdateArgs.Namespace :=
  {| UpdateArgs.event :=
       {| Args.token := token_path; Args.scopes := [];
          Args.calendar_id := "primary";
          Args.summary := Some "Retro"; Args.start := None; Args.end_ := None;
          Args.time_zone := None; Args.location := Some "Room 2";
          Args.description := None; Args.attendees := None;
          Args.recurrence := []; Args.send_updates := None;
          Args.body := None; Args.body_file := None |};
     UpdateArgs.event_id := "ev1" |}.

Definition untouched (token_path : string) : UpdateArgs.Namespace :=
  {| UpdateArgs.event := Toy.bare token_path; UpdateArgs.event_id := "ev1" |}.

Definition emptied (token_path : string) : UpdateArgs.Namespace :=
  {| UpdateArgs.event := Args.with_body (Some "{}") (Toy.bare token_path);
     UpdateArgs.event_id := "ev1" |}.

(** An update whose [--body] is the text [null]. *)
Definition nulled (token_path : string) : UpdateArgs.Namespace :=
  {| UpdateArgs.event := Args.with_body (Some "null") (Toy.bare token_path);
     UpdateArgs.event_id := "ev1" |}.

(** A renaming whose [--body-file] holds the text [null]. *)
Definition null_file (token_path : string) : UpdateArgs.Namespace :=
  {| UpdateArgs.event :=
       {| Args.token := token_path; Args.scopes := [];
          Args.calendar_id := "primary";
          Args.summary := Some "Retro"; Args.start := None; Args.end_ := None;
          Args.time_zone := None; Args.location := None;
          Args.description := None; Args.attendees := None;
          Args.recurrence := []; Args.send_updates := None;
          Args.body := None; Args.body_file := Some "/in/null.json" |};
     UpdateArgs.event_id := "ev1" |}.

Definition chore (token_path : string) : TaskArgs.Namespace :=
  {| TaskArgs.token := token_path; TaskArgs.scopes := [];
     TaskArgs.tasklist := "inbox"; TaskArgs.task_id := "t1";
     TaskArgs.title := Some "Water the plants"; TaskArgs.notes := None;
     TaskArgs.due := Some "2024-01-02T00:00:00Z"; TaskArgs.status := None;
     TaskArgs.completed := None; TaskArgs.parent := None;
     TaskArgs.previous := Some "t0";
     TaskArgs.body := None; TaskArgs.body_file := None |}.

Definition untitled (token_path : string) : TaskArgs.Namespace :=
  {| TaskArgs.token := token_path; TaskArgs.scopes := [];
     TaskArgs.tasklist := "inbox"; TaskArgs.task_id := "t1";
     TaskArgs.title := None; TaskArgs.notes := Some "bring a can";
     TaskArgs.due := None; TaskArgs.status := None;
     TaskArgs.completed := None; TaskArgs.parent := None;
     TaskArgs.previous := None;
     TaskArgs.body := None; TaskArgs.body_file := None |}.

Definition clash : CallArgs.Namespace :=
  {| CallArgs.token := "/tok/none"; CallArgs.scopes := [];
     CallArgs.method := "GET"; CallArgs.path := "/users/me/calendarList";
     CallArgs.params := Some "{}"; CallArgs.params_file := Some "/in/null.json";
     CallArgs.body := None; CallArgs.body_file := None |}.

Definition busy : FreeBusyArgs.Namespace :=
  {| FreeBusyArgs.token := "/tok/live"; FreeBusyArgs.scopes := [];
     FreeBusyArgs.calendars := "primary,,team@x.org";
     FreeBusyArgs.time_min := "2024-01-01T00:00:00Z";
     FreeBusyArgs.time_max := "2024-01-02T00:00:00Z";
     FreeBusyArgs.time_zone := None |}.

End Desk.

(** * Properties *)

(** ** Running the script by hand *)

(** Unfolds the monad and the primitive effects, then computes. *)
Ltac run :=
  unfold bind, ret, raise, lift, path_exists, read_text, write_text,
    refresh, session_request, emit;
  cbn.

(** Uses a fact about a collaborator or about the world, then computes. *)
Ltac given H := repeat (rewrite H; cbn).

(** ** Python strings and dictionaries on small inputs *)

Example split_keeps_empty_pieces : split "," "a,,b" = ["a"; ""; "b"].
Proof. reflexivity. Qed.

Example split_of_empty : split "," "" = [""].
Proof. reflexivity. Qed.

Example slice_from_short : slice_from 10 "2024" = "".
Proof. reflexivity. Qed.

Example dict_set_replaces :
  dict_set [("a", JInt 1); ("b", JInt 2)] "a" JNull = [("a", JNull); ("b", JInt 2)].
Proof. reflexivity. Qed.

Example attendee_list_skips_empty :
  attendee_list "a@x.org,,b@x.org" =
    JArr [JObj [("email", JStr "a@x.org")]; JObj [("email", JStr "b@x.org")]].
Proof. reflexivity. Qed.

(** ** Time encoding *)

Lemma time_object_date_only value time_zone :
  contains "T" value = false ->
  time_object value time_zone = JObj [("date", JStr value)].
Proof. intros HT. unfold time_object. now rewrite HT. Qed.

Lemma time_object_date_time value time_zone :
  contains "T" value = true ->
  time_object value time_zone =
    JObj (("dateTime", JStr value) ::
          if truthy time_zone && lacks_offset value
          then [("timeZone", of_opt_str time_zone)] else []).
Proof.
  intros HT. unfold time_object. rewrite HT.
  now destruct (truthy time_zone && lacks_offset value).
Qed.

Lemma lacks_offset_true value :
  lacks_offset value = true <->
  contains "Z" value = false /\ contains "+" value = false
  /\ contains "-" (slice_from 10 value) = false.
Proof.
  unfold lacks_offset.
  rewrite !andb_true_iff, !negb_true_iff. tauto.
Qed.

(** C6: the four worked encodings of the specification.  A pure date gives
    a [date] object whatever the fallback zone; a local date-time takes the
    fallback zone; a date-time ending in [Z] or carrying [-05:00] gets no
    [timeZone] field whatever the fallback zone. *)
Theorem time_object_examples :
  (forall tz, time_object "2024-01-01" tz = JObj [("date", JStr "2024-01-01")])
  /\ time_object "2024-01-01T10:00:00" (Some "America/New_York") =
       JObj [("dateTime", JStr "2024-01-01T10:00:00");
             ("timeZone", JStr "America/New_York")]
  /\ (forall tz, time_object "2024-01-01T10:00:00Z" tz =
                   JObj [("dateTime", JStr "2024-01-01T10:00:00Z")])
  /\ (forall tz, time_object "2024-01-01T10:00:00-05:00" tz =
                   JObj [("dateTime", JStr "2024-01-01T10:00:00-05:00")]).
Proof.
  split; [| split; [| split]].
  - intros tz. now apply time_object_date_only.
  - reflexivity.
  - intros tz. rewrite time_object_date_time by reflexivity.
    replace (lacks_offset "2024-01-01T10:00:00Z") with false by reflexivity.
    now rewrite andb_false_r.
  - intros tz. rewrite time_object_date_time by reflexivity.
    replace (lacks_offset "2024-01-01T10:00:00-05:00") with false by reflexivity.
    now rewrite andb_false_r.
Qed.

(** C2, as stated, fails: a ["+"] among the first ten characters suppresses
    the [timeZone] field although nothing after the tenth character is a
    sign and there is no ["Z"]. *)
Lemma time_object_plus_in_date_counterexample :
  contains "T" "+2024-01-01T10:00:00" = true
  /\ ~ (has_time_zone (time_object "+2024-01-01T10:00:00" (Some "UTC")) = true
        <-> contains "Z" "+2024-01-01T10:00:00" = false
            /\ contains "+" (slice_from 10 "+2024-01-01T10:00:00") = false
            /\ contains "-" (slice_from 10 "+2024-01-01T10:00:00") = false).
Proof.
  split; [reflexivity |].
  intros [_ H].
  assert (Hno : has_time_zone (time_object "+2024-01-01T10:00:00" (Some "UTC"))
                = false) by reflexivity.
  rewrite H in Hno by (repeat split; reflexivity).
  discriminate.
Qed.

(** C2, amended: for a string with a time marker and a non-empty fallback
    zone, the [timeZone] field is attached exactly when the string has no
    ["Z"] anywhere, no ["+"] anywhere, and no ["-"] after the tenth
    character; the field then holds the fallback zone. *)
Theorem time_object_time_zone_rule value tz :
  contains "T" value = true ->
  nonempty tz = true ->
  (has_time_zone (time_object value (Some tz)) = true <->
   contains "Z" value = false /\ contains "+" value = false
   /\ contains "-" (slice_from 10 value) = false)
  /\ time_object value (Some tz) =
       JObj (("dateTime", JStr value) ::
             if lacks_offset value then [("timeZone", JStr tz)] else []).
Proof.
  intros HT Htz.
  rewrite time_object_date_time by assumption.
  cbn [truthy of_opt_str]. rewrite Htz, andb_true_l.
  split; [| reflexivity].
  rewrite <- lacks_offset_true.
  destruct (lacks_offset value); cbn; intuition congruence.
Qed.

Lemma time_object_time_zone_rule_witness :
  time_object "-0044-03-15T10:00:00" (Some "Europe/Rome") =
    JObj [("dateTime", JStr "-0044-03-15T10:00:00");
          ("timeZone", JStr "Europe/Rome")].
Proof.
  exact (proj2 (time_object_time_zone_rule
                  "-0044-03-15T10:00:00" "Europe/Rome" eq_refl eq_refl)).
Defined.

(** ** Credential store *)

Section CredentialStore.

Variable env : Collaborators.

(** The load of a token file that needs no refresh, or cannot have one:
    the record is returned as read and the world is left as it was. *)
Lemma load_credentials_as_read token_path scopes w content c :
  files w !! resolve env token_path = Some content ->
  parse_credentials env content scopes = inr c ->
  expired env c && truthy (refresh_token c) = false ->
  load_credentials env token_path scopes w = (inr c, w).
Proof.
  intros Hfile Hparse Hcond.
  unfold load_credentials, from_authorized_user_file. run.
  given Hfile. given Hparse. given Hcond. reflexivity.
Qed.

Lemma load_credentials_missing token_path scopes w :
  files w !! resolve env token_path = None ->
  load_credentials env token_path scopes w =
    (inl (FileNotFoundError
            ("Token file not found: " +:+ resolve env token_path)), w).
Proof.
  intros Hfile. unfold load_credentials. run. now given Hfile.
Qed.

(** A refresh that succeeds: one call to the identity provider, then the
    token file holds the serialised new record. *)
Lemma load_credentials_refreshed token_path scopes w content c c' :
  files w !! resolve env token_path = Some content ->
  parse_credentials env content scopes = inr c ->
  expired env c = true -> truthy (refresh_token c) = true ->
  token_endpoint env c = inr c' ->
  load_credentials env token_path scopes w =
    (inr c',
     {| files := <[resolve env token_path := to_json env c']> (files w);
        log := log w ++ [TokenRefresh c;
                         FileWrite (resolve env token_path) (to_json env c')] |}).
Proof.
  intros Hfile Hparse Hexp Hrt Hnew.
  unfold load_credentials, from_authorized_user_file. run.
  given Hfile. given Hparse. given Hexp. given Hrt. given Hnew.
  now rewrite <- app_assoc.
Qed.

End CredentialStore.

(** C1, as stated, fails: the token file [/tok/dead] holds an expired record
    without a refresh token, and the load returns that record. *)
Lemma load_credentials_expired_returned_counterexample :
  expired Toy.env Toy.dead = true
  /\ refresh_token Toy.dead = None
  /\ load_credentials Toy.env "/tok/dead" [] Toy.world0 = (inr Toy.dead, Toy.world0).
Proof. repeat split; vm_compute; reflexivity. Qed.

(** C1, amended: for every credential record that is expired and has no
    refresh token, the load makes no refresh call and no file write and
    returns the record as read, still expired; it raises nothing itself. *)
Theorem load_credentials_expired_without_refresh_token
    env token_path scopes w content c :
  files w !! resolve env token_path = Some content ->
  parse_credentials env content scopes = inr c ->
  expired env c = true ->
  truthy (refresh_token c) = false ->
  load_credentials env token_path scopes w = (inr c, w).
Proof.
  intros Hfile Hparse _ Hrt.
  apply (load_credentials_as_read env _ _ _ content); [assumption .. |].
  now rewrite Hrt, andb_false_r.
Qed.

Lemma load_credentials_expired_without_refresh_token_witness :
  load_credentials Toy.env "/tok/dead" ["https://www.googleapis.com/auth/calendar"]
    Toy.world0 = (inr Toy.dead, Toy.world0).
Proof.
  apply (load_credentials_expired_without_refresh_token
           Toy.env "/tok/dead" _ Toy.world0 "ya29.dead" Toy.dead);
    vm_compute; reflexivity.
Defined.

(** C9: for every credential record that is not expired, the load returns
    the record unchanged and leaves the world as it was: the token file is
    not written and nothing is logged. *)
Theorem load_credentials_valid_unchanged env token_path scopes w content c :
  files w !! resolve env token_path = Some content ->
  parse_credentials env content scopes = inr c ->
  expired env c = false ->
  load_credentials env token_path scopes w = (inr c, w).
Proof.
  intros Hfile Hparse Hexp.
  apply (load_credentials_as_read env _ _ _ content); [assumption .. |].
  now rewrite Hexp.
Qed.

Lemma load_credentials_valid_unchanged_witness :
  load_credentials Toy.env "/tok/live" [] Toy.world0 = (inr Toy.live, Toy.world0).
Proof.
  apply (load_credentials_valid_unchanged
           Toy.env "/tok/live" [] Toy.world0 "ya29.live" Toy.live);
    vm_compute; reflexivity.
Defined.

Example load_credentials_stale_refreshes :
  load_credentials Toy.env "/tok/stale" [] Toy.world0 =
    (inr Toy.renewed,
     {| files := <["/tok/stale" := "ya29.renewed"]> Toy.disk;
        log := [TokenRefresh Toy.stale; FileWrite "/tok/stale" "ya29.renewed"] |}).
Proof. vm_compute. reflexivity. Qed.

(** ** Dispatcher: the URL *)

Lemma startswith_cons c p d s :
  startswith (String d s) (String c p) =
    if Ascii.eqb c d then startswith s p else false.
Proof.
  unfold startswith.
  change (String.prefix (String c p) (String d s))
    with (if Ascii.ascii_dec c d then String.prefix p s else false).
  destruct (Ascii.ascii_dec c d) as [-> | Hne].
  - now rewrite Ascii.eqb_refl.
  - apply Ascii.eqb_neq in Hne. now rewrite Hne.
Qed.

Lemma startswith_slash_cons p :
  startswith p "/" = false -> one_leading_slash ("/" +:+ p) = true.
Proof.
  intros Hp. unfold one_leading_slash.
  change ("/" +:+ p) with (String "/" p).
  rewrite !startswith_cons, Ascii.eqb_refl, Hp.
  now destruct p.
Qed.

(** C8, as stated, fails: a target that already begins with two slashes is
    joined to the base URL as it is, so the joined path does not begin with
    exactly one slash. *)
Lemma resolve_url_double_slash_counterexample :
  startswith "//freeBusy" "http://" = false
  /\ startswith "//freeBusy" "https://" = false
  /\ resolve_url "//freeBusy" CALENDAR_BASE_URL =
       CALENDAR_BASE_URL +:+ "//freeBusy"
  /\ one_leading_slash (normalize_path "//freeBusy") = false.
Proof. repeat split. Qed.

(** C8, amended: a target that begins with [http://] or [https://] is the
    URL, whatever the base URL; every other target is joined to the base URL
    after a slash is put in front of it when it does not begin with one (a
    target that begins with slashes keeps all of them), so the joined path
    always begins with a slash, and with exactly one when one was added. *)
Theorem resolve_url_cases path base_url :
  (startswith path "http://" = true \/ startswith path "https://" = true ->
   resolve_url path base_url = path)
  /\ (startswith path "http://" = false -> startswith path "https://" = false ->
      resolve_url path base_url = base_url +:+ normalize_path path
      /\ startswith (normalize_path path) "/" = true
      /\ (startswith path "/" = true -> normalize_path path = path)
      /\ (startswith path "/" = false ->
          normalize_path path = "/" +:+ path
          /\ one_leading_slash (normalize_path path) = true)).
Proof.
  unfold resolve_url, has_scheme. split.
  - intros [-> | ->]; [reflexivity |]. now rewrite orb_true_r.
  - intros -> ->. cbn [orb]. split; [reflexivity |].
    unfold normalize_path.
    destruct (startswith path "/") eqn:Hs; cbn [negb].
    + split; [assumption |]. split; [reflexivity | discriminate].
    + split; [now destruct path |]. split; [discriminate |]. intros _.
      split; [reflexivity |]. now apply startswith_slash_cons.
Qed.

Lemma resolve_url_cases_witness :
  resolve_url "https://tasks.googleapis.com/tasks/v1/users/@me/lists"
    CALENDAR_BASE_URL = "https://tasks.googleapis.com/tasks/v1/users/@me/lists"
  /\ resolve_url "calendars/primary/events" CALENDAR_BASE_URL =
       CALENDAR_BASE_URL +:+ normalize_path "calendars/primary/events"
  /\ one_leading_slash (normalize_path "calendars/primary/events") = true.
Proof.
  split.
  - apply (proj1 (resolve_url_cases _ CALENDAR_BASE_URL)). right. reflexivity.
  - destruct (proj2 (resolve_url_cases "calendars/primary/events"
                       CALENDAR_BASE_URL) eq_refl eq_refl)
      as (Hurl & _ & _ & Hadd).
    split; [exact Hurl |]. exact (proj2 (Hadd eq_refl)).
Defined.

(** ** Dispatcher: the response *)

Section Dispatch.

Variable env : Collaborators.

(** No server: the failure of the transport is the failure of [request]. *)
Lemma request_transport_failure session method path params body base_url w e :
  http env session method (resolve_url path base_url) params body = inl e ->
  request env session method path params body base_url w =
    (inl e, after_call method path params body base_url w).
Proof. intros Hhttp. unfold request. run. now given Hhttp. Qed.

End Dispatch.

(** C3, as stated, fails: a gateway answers 502 with a page of HTML
    announced as JSON; the failure is the parser's exception and carries
    neither the status nor a payload. *)
Lemma request_unparsable_error_counterexample :
  http Desk.flaky Toy.session "GET"
    (resolve_url "/users/me/calendarList" CALENDAR_BASE_URL) JNull JNull =
    inr {| status_code := 502; content_type := Some "application/json";
           text := "<html>" |}
  /\ request Desk.flaky Toy.session "GET" "/users/me/calendarList" JNull JNull
       CALENDAR_BASE_URL Toy.world0 =
       (inl (JSONDecodeError "<html>"),
        after_call "GET" "/users/me/calendarList" JNull JNull
          CALENDAR_BASE_URL Toy.world0)
  /\ forall message,
       fst (request Desk.flaky Toy.session "GET" "/users/me/calendarList"
              JNull JNull CALENDAR_BASE_URL Toy.world0)
       <> inl (RuntimeError message).
Proof.
  split; [reflexivity |]. split; [vm_compute; reflexivity |].
  intros message. vm_compute. discriminate.
Qed.

(** C3, amended: every response is classified in this order.  A status of
    400 or more is a failure: under a JSON content type whose body parses,
    one whose message carries the status and the rendered parsed body;
    under a JSON content type whose body does not parse, the parser's
    exception, with no status and no payload; under any other content type,
    one whose message carries the status and [{"error": text}].  Status 204
    gives [{"status": "deleted"}] whatever the body.  Otherwise a JSON
    content type gives what the parser gives on the body, the parsed value
    or its exception, and any other content type gives [{"text": text}]. *)
Theorem request_classification
    env session method path params body base_url w response :
  http env session method (resolve_url path base_url) params body
    = inr response ->
  let outcome := request env session method path params body base_url w in
  let w' := after_call method path params body base_url w in
  let kind := default "" (content_type response) in
  (400 <= status_code response ->
   (contains "application/json" kind = true ->
    (forall payload,
       json_loads env (text response) = inr payload ->
       outcome = (inl (RuntimeError
                     ("HTTP " +:+ pretty (status_code response) +:+ ": "
                      +:+ json_dumps env payload)), w'))
    /\ (forall e,
          json_loads env (text response) = inl e ->
          outcome = (inl e, w')))
   /\ (contains "application/json" kind = false ->
       outcome = (inl (RuntimeError
                     ("HTTP " +:+ pretty (status_code response) +:+ ": "
                      +:+ json_dumps env
                            (JObj [("error", JStr (text response))]))), w')))
  /\ (status_code response = 204 ->
      outcome = (inr (JObj [("status", JStr "deleted")]), w'))
  /\ (status_code response < 400 -> status_code response <> 204 ->
      (contains "application/json" kind = true ->
       outcome = (json_loads env (text response), w'))
      /\ (contains "application/json" kind = false ->
          outcome = (inr (JObj [("text", JStr (text response))]), w'))).
Proof.
  intros Hhttp outcome w' kind. subst outcome w'.
  unfold request, after_call, response_json, http_error_message, is_json.
  run. given Hhttp. fold kind.
  split; [| split].
  - intros Hge. apply Z.leb_le in Hge. rewrite Hge.
    split; intros Hkind; rewrite Hkind; cbn; [| reflexivity].
    split; [intros payload Hload | intros e Hload]; now rewrite Hload.
  - intros H204. rewrite H204. reflexivity.
  - intros Hlt Hne.
    apply Z.leb_gt in Hlt. apply Z.eqb_neq in Hne. rewrite Hlt, Hne.
    split; intros Hkind; rewrite Hkind; cbn; [| reflexivity].
    now destruct (json_loads env (text response)).
Qed.

Lemma request_classification_witness :
  request Toy.env Toy.session "GET" "/calendars/missing" JNull JNull
    CALENDAR_BASE_URL Toy.world0 =
    (inl (RuntimeError "HTTP 404: {}"),
     after_call "GET" "/calendars/missing" JNull JNull CALENDAR_BASE_URL
       Toy.world0)
  /\ request Desk.flaky Toy.session "GET" "/users/me/calendarList" JNull JNull
       CALENDAR_BASE_URL Toy.world0 =
       (inl (JSONDecodeError "<html>"),
        after_call "GET" "/users/me/calendarList" JNull JNull
          CALENDAR_BASE_URL Toy.world0)
  /\ request Toy.env Toy.session "GET" "/broken" JNull JNull
       CALENDAR_BASE_URL Toy.world0 =
       (inl (RuntimeError "HTTP 500: {error: boom}"),
        after_call "GET" "/broken" JNull JNull CALENDAR_BASE_URL Toy.world0)
  /\ request Toy.env Toy.session "DELETE" "/calendars/primary/events/e1" JNull JNull
       CALENDAR_BASE_URL Toy.world0 =
       (inr (JObj [("status", JStr "deleted")]),
        after_call "DELETE" "/calendars/primary/events/e1" JNull JNull
          CALENDAR_BASE_URL Toy.world0)
  /\ request Toy.env Toy.session "GET" "/users/me/calendarList" JNull JNull
       CALENDAR_BASE_URL Toy.world0 =
       (inr (JObj []),
        after_call "GET" "/users/me/calendarList" JNull JNull
          CALENDAR_BASE_URL Toy.world0).
Proof.
  split; [| split; [| split; [| split]]].
  - refine (proj1 (proj1 (proj1 (request_classification Toy.env Toy.session
              "GET" "/calendars/missing" JNull JNull CALENDAR_BASE_URL
              Toy.world0 _ eq_refl) _) eq_refl) (JObj []) eq_refl).
    cbn. lia.
  - refine (proj2 (proj1 (proj1 (request_classification Desk.flaky Toy.session
              "GET" "/users/me/calendarList" JNull JNull CALENDAR_BASE_URL
              Toy.world0 _ eq_refl) _) eq_refl)
              (JSONDecodeError "<html>") eq_refl).
    cbn. lia.
  - refine (proj2 (proj1 (request_classification Toy.env Toy.session "GET"
              "/broken" JNull JNull CALENDAR_BASE_URL Toy.world0
              _ eq_refl) _) eq_refl).
    cbn. lia.
  - exact (proj1 (proj2 (request_classification Toy.env Toy.session "DELETE"
             "/calendars/primary/events/e1" JNull JNull CALENDAR_BASE_URL
             Toy.world0 _ eq_refl)) eq_refl).
  - refine (proj1 (proj2 (proj2 (request_classification Toy.env Toy.session "GET"
              "/users/me/calendarList" JNull JNull CALENDAR_BASE_URL Toy.world0
              _ eq_refl)) _ _) eq_refl); cbn; lia.
Defined.

(** ** Input resolver *)

Section Resolver.

Variable env : Collaborators.

Lemma load_json_input_absent raw path w :
  truthy raw = false -> truthy path = false ->
  load_json_input env raw path w = (inr JNull, w).
Proof. intros Hraw Hpath. unfold load_json_input. now rewrite Hraw, Hpath. Qed.

Lemma load_json_input_inline raw path w :
  nonempty raw = true -> truthy path = false ->
  load_json_input env (Some raw) path w = (json_loads env raw, w).
Proof.
  intros Hraw Hpath. unfold load_json_input. cbn [truthy].
  now rewrite Hraw, Hpath.
Qed.

Lemma load_json_input_file raw path content w :
  truthy raw = false -> nonempty path = true ->
  files w !! path = Some content ->
  load_json_input env raw (Some path) w = (json_loads env content, w).
Proof.
  intros Hraw Hpath Hfile. unfold load_json_input. cbn [truthy].
  rewrite Hraw, Hpath. run. now given Hfile.
Qed.

End Resolver.

(** C4: with a non-empty inline text and a non-empty file path the resolver
    raises its usage error at once, whatever the two hold and whatever they
    would parse to, and leaves the world as it was: no file is read and no
    network call is made. *)
Theorem load_json_input_conflict env raw path w :
  nonempty raw = true ->
  nonempty path = true ->
  load_json_input env (Some raw) (Some path) w =
    (inl (ValueError
            "Use only one of --body/--params or --body-file/--params-file"), w)
  /\ forall e, fst (load_json_input env (Some raw) (Some path) w) = inl e ->
               is_usage_error e = true.
Proof.
  intros Hraw Hpath.
  assert (Hrun : load_json_input env (Some raw) (Some path) w =
    (inl (ValueError
            "Use only one of --body/--params or --body-file/--params-file"), w)).
  { unfold load_json_input. cbn [truthy]. now rewrite Hraw, Hpath. }
  split; [exact Hrun |].
  intros e. rewrite Hrun. cbn. now intros [= <-].
Qed.

Lemma load_json_input_conflict_witness :
  load_json_input Toy.env (Some "{}") (Some "/in/null.json") Toy.world0 =
    (inl (ValueError
            "Use only one of --body/--params or --body-file/--params-file"),
     Toy.world0).
Proof.
  exact (proj1 (load_json_input_conflict Toy.env "{}" "/in/null.json"
                  Toy.world0 eq_refl eq_refl)).
Defined.

(** ** Event creation *)

Section CreateEvent.

Variable env : Collaborators.

(** Once the credential is loaded and the resolver has answered, the
    command is the choice of the body followed by one POST. *)
Lemma cmd_create_event_after_inputs args w session w1 v w2 :
  session_from_token env (Args.token args) (Args.scopes args) w
    = (inr session, w1) ->
  load_json_input env (Args.body args) (Args.body_file args) w1
    = (inr v, w2) ->
  cmd_create_event env args w =
    bind (create_event_body args v)
         (fun body => request env session "POST" (events_path args)
                        (send_updates_params args) body CALENDAR_BASE_URL) w2.
Proof.
  intros Hsession Hinput. unfold cmd_create_event.
  unfold bind at 1. rewrite Hsession.
  unfold bind at 1. now rewrite Hinput.
Qed.

(** The command, one effect at a time. *)
Lemma cmd_create_event_steps args w :
  cmd_create_event env args w =
    match session_from_token env (Args.token args) (Args.scopes args) w with
    | (inl e, w1) => (inl e, w1)
    | (inr session, w1) =>
        match load_json_input env (Args.body args) (Args.body_file args) w1
        with
        | (inl e, w2) => (inl e, w2)
        | (inr v, w2) =>
            bind (create_event_body args v)
              (fun body => request env session "POST" (events_path args)
                             (send_updates_params args) body
                             CALENDAR_BASE_URL) w2
        end
    end.
Proof. reflexivity. Qed.

(** A credential that cannot be loaded ends the command there. *)
Lemma cmd_create_event_no_session args w e w1 :
  session_from_token env (Args.token args) (Args.scopes args) w
    = (inl e, w1) ->
  cmd_create_event env args w = (inl e, w1).
Proof.
  intros Hsession. unfold cmd_create_event.
  unfold bind at 1. now rewrite Hsession.
Qed.

Lemma create_event_body_override args v w :
  v <> JNull -> create_event_body args v w = (inr v, w).
Proof. intros Hv. unfold create_event_body. now destruct v. Qed.

End CreateEvent.

Lemma keys_event_body_from_args args :
  keys (event_body_from_args args) =
    (["summary"; "start"; "end"]
     ++ (if truthy (Args.location args) then ["location"] else [])
     ++ (if truthy (Args.description args) then ["description"] else [])
     ++ (if truthy (Args.attendees args) then ["attendees"] else [])
     ++ (if nonempty_list (Args.recurrence args) then ["recurrence"] else [])
    )%list.
Proof.
  unfold event_body_from_args.
  destruct (truthy (Args.location args)), (truthy (Args.description args)),
    (truthy (Args.attendees args)), (nonempty_list (Args.recurrence args));
    reflexivity.
Qed.

Lemma create_event_body_absent args w :
  create_event_body args JNull w =
    if truthy (Args.summary args) && truthy (Args.start args)
       && truthy (Args.end_ args)
    then (inr (JObj (event_body_from_args args)), w)
    else (inl (ValueError
           "--summary, --start, and --end are required unless --body is provided"),
          w).
Proof.
  unfold create_event_body. cbn [is_None].
  now destruct (truthy (Args.summary args)), (truthy (Args.start args)),
    (truthy (Args.end_ args)).
Qed.

Example null_body_runs_required_check :
  cmd_create_event Toy.env (Args.with_body (Some "null") (Toy.bare "/tok/live"))
    Toy.world0 =
    (inl (ValueError
            "--summary, --start, and --end are required unless --body is provided"),
     Toy.world0).
Proof. vm_compute. reflexivity. Qed.

(** C7, as stated, fails: the command loads the credential before it looks
    at its fields.  With the token file [/tok/stale] and no field supplied
    the required-fields error comes after a refresh call to the identity
    provider and a rewrite of the token file; with a token file that does
    not exist the command fails with [FileNotFoundError] instead. *)
Lemma cmd_create_event_credential_first_counterexample :
  cmd_create_event Toy.env (Toy.bare "/tok/stale") Toy.world0 =
    (inl (ValueError
            "--summary, --start, and --end are required unless --body is provided"),
     {| files := <["/tok/stale" := "ya29.renewed"]> Toy.disk;
        log := [TokenRefresh Toy.stale; FileWrite "/tok/stale" "ya29.renewed"] |})
  /\ network_calls (snd (cmd_create_event Toy.env (Toy.bare "/tok/stale")
                           Toy.world0)) = [TokenRefresh Toy.stale]
  /\ cmd_create_event Toy.env (Toy.bare "/tok/none") Toy.world0 =
       (inl (FileNotFoundError "Token file not found: /tok/none"), Toy.world0).
Proof. repeat split; vm_compute; reflexivity. Qed.

(** C7, amended: once the credential is loaded, event creation with no
    inline body and no body file fails with the required-fields error when
    any of summary, start, end is missing, and sends no API request; with
    all three supplied it sends one POST whose body holds exactly the keys
    summary, start, end and then location, description, attendees,
    recurrence for those of them that were supplied. *)
Theorem cmd_create_event_structured env args w session w1 :
  session_from_token env (Args.token args) (Args.scopes args) w
    = (inr session, w1) ->
  truthy (Args.body args) = false ->
  truthy (Args.body_file args) = false ->
  (truthy (Args.summary args) && truthy (Args.start args)
   && truthy (Args.end_ args) = false ->
   cmd_create_event env args w =
     (inl (ValueError
             "--summary, --start, and --end are required unless --body is provided"),
      w1))
  /\ (truthy (Args.summary args) = true -> truthy (Args.start args) = true ->
      truthy (Args.end_ args) = true ->
      cmd_create_event env args w =
        request env session "POST" (events_path args)
          (send_updates_params args) (JObj (event_body_from_args args))
          CALENDAR_BASE_URL w1
      /\ keys (event_body_from_args args) =
           (["summary"; "start"; "end"]
            ++ (if truthy (Args.location args) then ["location"] else [])
            ++ (if truthy (Args.description args) then ["description"] else [])
            ++ (if truthy (Args.attendees args) then ["attendees"] else [])
            ++ (if nonempty_list (Args.recurrence args)
                then ["recurrence"] else []))%list).
Proof.
  intros Hsession Hbody Hfile.
  rewrite (cmd_create_event_after_inputs env args w session w1 JNull w1)
    by (try assumption; now apply load_json_input_absent).
  unfold bind. rewrite create_event_body_absent.
  split.
  - now intros ->.
  - intros -> -> ->. split; [reflexivity |]. apply keys_event_body_from_args.
Qed.

Lemma cmd_create_event_structured_witness :
  cmd_create_event Toy.env (Toy.bare "/tok/stale") Toy.world0 =
    (inl (ValueError
            "--summary, --start, and --end are required unless --body is provided"),
     snd (session_from_token Toy.env "/tok/stale" [] Toy.world0))
  /\ keys (event_body_from_args (Toy.standup "/tok/live")) =
       ["summary"; "start"; "end"; "attendees"]
  /\ cmd_create_event Toy.env (Toy.standup "/tok/live") Toy.world0 =
       request Toy.env Toy.session "POST"
         "/calendars/primary/events" JNull
         (JObj (event_body_from_args (Toy.standup "/tok/live")))
         CALENDAR_BASE_URL Toy.world0.
Proof.
  split; [| split].
  - exact (proj1 (cmd_create_event_structured Toy.env (Toy.bare "/tok/stale")
                    Toy.world0 {| credentials := Toy.renewed |}
                    (snd (session_from_token Toy.env "/tok/stale" [] Toy.world0))
                    eq_refl eq_refl eq_refl) eq_refl).
  - exact (proj2 (proj2 (cmd_create_event_structured Toy.env
                    (Toy.standup "/tok/live") Toy.world0
                    Toy.session Toy.world0
                    eq_refl eq_refl eq_refl) eq_refl eq_refl eq_refl)).
  - exact (proj1 (proj2 (cmd_create_event_structured Toy.env
                    (Toy.standup "/tok/live") Toy.world0
                    Toy.session Toy.world0
                    eq_refl eq_refl eq_refl) eq_refl eq_refl eq_refl)).
Defined.

Example standup_body :
  event_body_from_args (Toy.standup "/tok/live") =
    [("summary", JStr "Standup");
     ("start", JObj [("dateTime", JStr "2024-01-01T10:00:00");
                     ("timeZone", JStr "Europe/Rome")]);
     ("end", JObj [("dateTime", JStr "2024-01-01T10:15:00");
                   ("timeZone", JStr "Europe/Rome")]);
     ("attendees", JArr [JObj [("email", JStr "a@x.org")];
                         JObj [("email", JStr "b@x.org")]])].
Proof. reflexivity. Qed.

(** * Further properties *)

(** ** Credential store: refresh *)

(** X1: an expired record with a refresh token that the identity provider
    renews is returned renewed after exactly one refresh call; the token
    file then holds the serialised new record and every other file is as it
    was. *)
Theorem load_credentials_refresh_persists
    env token_path scopes w content c c' :
  files w !! resolve env token_path = Some content ->
  parse_credentials env content scopes = inr c ->
  expired env c = true ->
  truthy (refresh_token c) = true ->
  token_endpoint env c = inr c' ->
  exists w',
    load_credentials env token_path scopes w = (inr c', w')
    /\ files w' !! resolve env token_path = Some (to_json env c')
    /\ (forall p, p <> resolve env token_path -> files w' !! p = files w !! p)
    /\ log w' = (log w ++ [TokenRefresh c;
                           FileWrite (resolve env token_path) (to_json env c')]
                )%list
    /\ network_calls w' = (network_calls w ++ [TokenRefresh c])%list.
Proof.
  intros Hfile Hparse Hexp Hrt Hnew.
  eexists. split.
  { now apply (load_credentials_refreshed env _ _ _ content c c'). }
  cbn. split; [apply lookup_insert_eq |].
  split; [intros p Hp; now apply lookup_insert_ne |].
  split; [reflexivity |].
  unfold network_calls. cbn. now rewrite filter_app.
Qed.

Lemma load_credentials_refresh_persists_witness :
  exists w',
    load_credentials Toy.env "/tok/stale" [] Toy.world0 = (inr Toy.renewed, w')
    /\ files w' !! "/tok/stale" = Some "ya29.renewed"
    /\ (forall p, p <> "/tok/stale" -> files w' !! p = files Toy.world0 !! p)
    /\ log w' = [TokenRefresh Toy.stale; FileWrite "/tok/stale" "ya29.renewed"]
    /\ network_calls w' = [TokenRefresh Toy.stale].
Proof.
  exact (load_credentials_refresh_persists Toy.env "/tok/stale" [] Toy.world0
           "ya29.stale" Toy.stale Toy.renewed
           eq_refl eq_refl eq_refl eq_refl eq_refl).
Defined.

(** X2: when the identity provider refuses the refresh, the load fails with
    the provider's error after that one call, and no file is written. *)
Theorem load_credentials_refresh_failure_keeps_file
    env token_path scopes w content c e :
  files w !! resolve env token_path = Some content ->
  parse_credentials env content scopes = inr c ->
  expired env c = true ->
  truthy (refresh_token c) = true ->
  token_endpoint env c = inl e ->
  load_credentials env token_path scopes w =
    (inl e, {| files := files w; log := (log w ++ [TokenRefresh c])%list |}).
Proof.
  intros Hfile Hparse Hexp Hrt Hfail.
  unfold load_credentials, from_authorized_user_file. run.
  given Hfile. given Hparse. given Hexp. given Hrt. now given Hfail.
Qed.

(** X3: whatever the token file holds and whatever the provider answers,
    the load writes no file but the token file and sends no API request:
    all it can add to the log is one refresh call to the identity provider,
    followed, when the provider renews the record, by the write of the
    token file. *)
Theorem load_credentials_frame env token_path scopes w :
  (forall p,
     p <> resolve env token_path ->
     files (snd (load_credentials env token_path scopes w)) !! p
       = files w !! p)
  /\ exists added,
       log (snd (load_credentials env token_path scopes w))
         = (log w ++ added)%list
       /\ (added = []
           \/ (exists c, added = [TokenRefresh c])
           \/ (exists c c',
                 added = [TokenRefresh c;
                          FileWrite (resolve env token_path)
                            (to_json env c')])).
Proof.
  unfold load_credentials, from_authorized_user_file. run.
  destruct (files w !! resolve env token_path) as [content |] eqn:Hfile; cbn.
  2: { split; [reflexivity |].
       exists []. split; [now rewrite app_nil_r | now left]. }
  given Hfile.
  destruct (parse_credentials env content scopes) as [e | c]; cbn.
  { split; [reflexivity |].
    exists []. split; [now rewrite app_nil_r | now left]. }
  destruct (expired env c && truthy (refresh_token c)); cbn.
  2: { split; [reflexivity |].
       exists []. split; [now rewrite app_nil_r | now left]. }
  destruct (token_endpoint env c) as [e | c']; cbn.
  - split; [reflexivity |].
    exists [TokenRefresh c]. split; [reflexivity |]. right. left. now exists c.
  - split; [intros p Hp; now apply lookup_insert_ne |].
    exists [TokenRefresh c;
            FileWrite (resolve env token_path) (to_json env c')].
    split; [now rewrite <- app_assoc |]. right. right. now exists c, c'.
Qed.

Lemma load_credentials_frame_witness :
  files (snd (load_credentials Toy.env "/tok/stale" [] Toy.world0))
    !! "/tok/live" = Some "ya29.live".
Proof.
  refine (eq_trans (proj1 (load_credentials_frame Toy.env "/tok/stale" []
                             Toy.world0) "/tok/live" _) eq_refl).
  discriminate.
Defined.

(** X4: a load that follows a successful refresh reads the record the
    refresh wrote and, that record not being expired, makes no second
    refresh and no second write. *)
Theorem load_credentials_after_refresh
    env token_path scopes w content c c' w' :
  files w !! resolve env token_path = Some content ->
  parse_credentials env content scopes = inr c ->
  expired env c = true ->
  truthy (refresh_token c) = true ->
  token_endpoint env c = inr c' ->
  parse_credentials env (to_json env c') scopes = inr c' ->
  expired env c' = false ->
  load_credentials env token_path scopes w = (inr c', w') ->
  load_credentials env token_path scopes w' = (inr c', w').
Proof.
  intros Hfile Hparse Hexp Hrt Hnew Hback Hlive Hfirst.
  rewrite (load_credentials_refreshed env _ _ _ content c c') in Hfirst
    by assumption.
  injection Hfirst as <-.
  apply (load_credentials_as_read env _ _ _ (to_json env c')).
  - cbn. apply lookup_insert_eq.
  - assumption.
  - now rewrite Hlive.
Qed.

Lemma load_credentials_after_refresh_witness :
  load_credentials Toy.env "/tok/stale" []
    (snd (load_credentials Toy.env "/tok/stale" [] Toy.world0)) =
    (inr Toy.renewed, snd (load_credentials Toy.env "/tok/stale" [] Toy.world0)).
Proof.
  apply (load_credentials_after_refresh Toy.env "/tok/stale" [] Toy.world0
           "ya29.stale" Toy.stale Toy.renewed); vm_compute; reflexivity.
Defined.

(** ** Dispatcher: one call, and what a success means *)

(** X5: [request] hands the session one request, for the resolved URL with
    the given method, parameters and body, and does nothing else: whatever
    comes back, a response of any status or an exception of the transport,
    the script itself asks no second time, refreshes nothing and touches no
    file.  ([HttpCall] records the call of [session.request]; what the
    library puts on the wire inside that call is the library's.) *)
Theorem request_makes_one_call env session method path params body base_url w :
  snd (request env session method path params body base_url w) =
    after_call method path params body base_url w.
Proof.
  unfold request, after_call, response_json. run.
  destruct (http env session method (resolve_url path base_url) params body)
    as [e | response]; cbn; [reflexivity |].
  destruct (400 <=? status_code response); cbn.
  - destruct (is_json (default "" (content_type response))); cbn;
      [| reflexivity].
    now destruct (json_loads env (text response)).
  - destruct (status_code response =? 204); cbn; [reflexivity |].
    now destruct (is_json (default "" (content_type response))).
Qed.

(** X6: [request] returns a value only for a response whose status is below
    400; a status of 400 or more always ends in an exception. *)
Theorem request_success_below_400
    env session method path params body base_url w v :
  fst (request env session method path params body base_url w) = inr v ->
  exists response,
    http env session method (resolve_url path base_url) params body
      = inr response
    /\ status_code response < 400.
Proof.
  unfold request, response_json. run.
  destruct (http env session method (resolve_url path base_url) params body)
    as [e | response]; cbn; [discriminate |].
  destruct (400 <=? status_code response) eqn:Hstatus; cbn.
  - destruct (is_json (default "" (content_type response))); cbn;
      [| discriminate].
    now destruct (json_loads env (text response)).
  - intros _. exists response. split; [reflexivity |].
    now apply Z.leb_gt.
Qed.

Lemma request_success_below_400_witness :
  exists response,
    Toy.server Toy.session "GET"
      (resolve_url "/users/me/calendarList" CALENDAR_BASE_URL) JNull JNull
      = inr response
    /\ status_code response < 400.
Proof.
  exact (request_success_below_400 Toy.env Toy.session "GET"
           "/users/me/calendarList" JNull JNull CALENDAR_BASE_URL Toy.world0
           (JObj []) eq_refl).
Defined.

(** X7: a response announced as JSON whose body does not parse ends in the
    parser's exception, for an error status as for a success other than
    204; for an error status the [HTTP <status>] message is then never
    built. *)
Theorem request_unparsable_json
    env session method path params body base_url w response e :
  http env session method (resolve_url path base_url) params body
    = inr response ->
  status_code response <> 204 ->
  contains "application/json" (default "" (content_type response)) = true ->
  json_loads env (text response) = inl e ->
  request env session method path params body base_url w =
    (inl e, after_call method path params body base_url w).
Proof.
  intros Hhttp Hne Hkind Hbad.
  unfold request, after_call, response_json, is_json. run.
  given Hhttp. rewrite Hkind. apply Z.eqb_neq in Hne. rewrite Hne.
  destruct (400 <=? status_code response); cbn; now rewrite Hbad.
Qed.

(** ** Dispatcher: paths that begin with a slash *)

Lemma has_scheme_rooted x : has_scheme (String "/" x) = false.
Proof.
  unfold has_scheme.
  change "http://" with (String "h" "ttp://").
  change "https://" with (String "h" "ttps://").
  now rewrite !startswith_cons.
Qed.

Lemma resolve_url_rooted x base_url :
  resolve_url (String "/" x) base_url = base_url +:+ String "/" x.
Proof.
  unfold resolve_url. rewrite has_scheme_rooted.
  unfold normalize_path.
  change (startswith (String "/" x) "/")
    with (startswith (String "/" x) (String "/" "")).
  rewrite startswith_cons, Ascii.eqb_refl.
  unfold startswith. now destruct x.
Qed.

(** X8: the paths of the named commands stay on the base URL whatever the
    identifiers hold: a calendar, event, task-list or task identifier that
    looks like a URL cannot send the call elsewhere. *)
Theorem command_paths_stay_on_base
    (args : Args.Namespace) (calendar_id event_id tasklist task_id : string)
    (base_url : string) :
  resolve_url (events_path args) base_url = base_url +:+ events_path args
  /\ resolve_url (event_path calendar_id event_id) base_url =
       base_url +:+ event_path calendar_id event_id
  /\ resolve_url (tasks_path tasklist) base_url =
       base_url +:+ tasks_path tasklist
  /\ resolve_url (task_path tasklist task_id) base_url =
       base_url +:+ task_path tasklist task_id
  /\ resolve_url (tasklist_path tasklist) base_url =
       base_url +:+ tasklist_path tasklist.
Proof.
  unfold events_path, event_path, tasks_path, task_path, tasklist_path.
  repeat split; apply resolve_url_rooted.
Qed.

(** X9: for a target without scheme, the leading slash is optional: with
    and without it the call goes to the same URL. *)
Theorem resolve_url_optional_slash path base_url :
  startswith path "http://" = false ->
  startswith path "https://" = false ->
  startswith path "/" = false ->
  resolve_url ("/" +:+ path) base_url = resolve_url path base_url.
Proof.
  intros Hhttp Hhttps Hslash.
  change ("/" +:+ path) with (String "/" path).
  rewrite resolve_url_rooted.
  unfold resolve_url, has_scheme, normalize_path.
  now rewrite Hhttp, Hhttps, Hslash.
Qed.

Lemma resolve_url_optional_slash_witness :
  resolve_url "/freeBusy" CALENDAR_BASE_URL =
    resolve_url "freeBusy" CALENDAR_BASE_URL.
Proof.
  exact (resolve_url_optional_slash "freeBusy" CALENDAR_BASE_URL
           eq_refl eq_refl eq_refl).
Defined.

(** ** Input resolver: what it reads and what it leaves *)

Lemma load_json_input_keeps_world env raw path w :
  snd (load_json_input env raw path w) = w.
Proof.
  unfold load_json_input.
  destruct (truthy raw && truthy path); [reflexivity |].
  destruct (truthy path).
  - run. now destruct (files w !! default "" path).
  - now destruct (truthy raw).
Qed.

(** X10: the resolver only reads: whatever it is given and whatever the
    outcome, the files and the log are as before. *)
Theorem load_json_input_read_only env raw path w :
  snd (load_json_input env raw path w) = w.
Proof. apply load_json_input_keeps_world. Qed.

(** X11: a file path with no inline text names the only source: a missing
    file is [FileNotFoundError], a file that does not parse is the parser's
    exception, and in both cases nothing else is done. *)
Theorem load_json_input_file_errors env raw path w :
  truthy raw = false ->
  nonempty path = true ->
  (files w !! path = None ->
   exists msg,
     load_json_input env raw (Some path) w = (inl (FileNotFoundError msg), w))
  /\ (forall content e,
        files w !! path = Some content ->
        json_loads env content = inl e ->
        load_json_input env raw (Some path) w = (inl e, w)).
Proof.
  intros Hraw Hpath. split.
  - intros Hfile. exists path.
    unfold load_json_input. cbn [truthy]. rewrite Hraw, Hpath. run.
    now given Hfile.
  - intros content e Hfile Hbad.
    rewrite (load_json_input_file env raw path content) by assumption.
    now rewrite Hbad.
Qed.

Lemma load_json_input_file_errors_witness :
  (exists msg,
     load_json_input Toy.env None (Some "/in/gone.json") Toy.world0 =
       (inl (FileNotFoundError msg), Toy.world0))
  /\ load_json_input Toy.env None (Some "/tok/live") Toy.world0 =
       (inl (JSONDecodeError "ya29.live"), Toy.world0).
Proof.
  split.
  - exact (proj1 (load_json_input_file_errors Toy.env None "/in/gone.json"
                    Toy.world0 eq_refl eq_refl) eq_refl).
  - exact (proj2 (load_json_input_file_errors Toy.env None "/tok/live"
                    Toy.world0 eq_refl eq_refl)
             "ya29.live" (JSONDecodeError "ya29.live") eq_refl eq_refl).
Defined.

(** ** Time encoding: when a zone is attached *)

(** X12: a [timeZone] field in an encoded time is always the fallback zone
    that was supplied, non-empty, and sits beside a [dateTime] whose string
    shows no offset; a pure date never carries one. *)
Theorem time_object_time_zone_sound value time_zone x :
  dict_get (fields_of (time_object value time_zone)) "timeZone" = Some x ->
  contains "T" value = true
  /\ lacks_offset value = true
  /\ dict_get (fields_of (time_object value time_zone)) "dateTime"
       = Some (JStr value)
  /\ exists zone,
       time_zone = Some zone /\ nonempty zone = true /\ x = JStr zone.
Proof.
  destruct (contains "T" value) eqn:HT.
  - rewrite time_object_date_time by assumption.
    destruct (truthy time_zone) eqn:Hzone, (lacks_offset value) eqn:Hoff;
      cbn; try discriminate.
    intros [= <-]. repeat split.
    destruct time_zone as [zone |]; [| discriminate].
    exists zone. now repeat split.
  - rewrite time_object_date_only by assumption. discriminate.
Qed.

Lemma time_object_time_zone_sound_witness :
  contains "T" "2024-01-01T10:00:00" = true
  /\ lacks_offset "2024-01-01T10:00:00" = true
  /\ dict_get (fields_of (time_object "2024-01-01T10:00:00" (Some "Asia/Tokyo")))
       "dateTime" = Some (JStr "2024-01-01T10:00:00")
  /\ exists zone,
       Some "Asia/Tokyo" = Some zone /\ nonempty zone = true
       /\ JStr "Asia/Tokyo" = JStr zone.
Proof.
  exact (time_object_time_zone_sound "2024-01-01T10:00:00" (Some "Asia/Tokyo")
           (JStr "Asia/Tokyo") eq_refl).
Defined.

(** ** Comma-separated lists *)

Lemma append_nil_l s : "" +:+ s = s.
Proof. reflexivity. Qed.

Lemma append_cons c s t : String c s +:+ t = String c (s +:+ t).
Proof. reflexivity. Qed.

Lemma append_assoc a b c : (a +:+ b) +:+ c = a +:+ b +:+ c.
Proof.
  induction a as [| x a IH]; [reflexivity |].
  rewrite !append_cons. now rewrite IH.
Qed.

Lemma rev_app_acc x acc :
  String.rev_app x acc = String.rev_app x "" +:+ acc.
Proof.
  revert acc. induction x as [| c x IH]; intros acc; [reflexivity |].
  cbn [String.rev_app]. rewrite (IH (String c acc)), (IH (String c "")).
  now rewrite append_assoc.
Qed.

Lemma split_aux_app sep b a cur :
  split_aux sep cur (a +:+ String sep b) =
    (split_aux sep cur a ++ split sep b)%list.
Proof.
  revert cur.
  induction a as [| c a IH]; intros cur.
  - rewrite append_nil_l. cbn [split_aux]. now rewrite Ascii.eqb_refl.
  - rewrite append_cons. cbn [split_aux].
    destruct (Ascii.eqb c sep); now rewrite IH.
Qed.

Lemma split_app sep a b :
  split sep (a +:+ String sep b) = (split sep a ++ split sep b)%list.
Proof. apply split_aux_app. Qed.

Lemma contains_char_cons c d s :
  contains (String c "") (String d s) =
    Ascii.eqb c d || contains (String c "") s.
Proof.
  cbn [contains].
  change (String.prefix (String c "") (String d s))
    with (startswith (String d s) (String c "")).
  rewrite startswith_cons.
  destruct (Ascii.eqb c d); [| reflexivity].
  unfold startswith. now destruct s.
Qed.

Lemma contains_char_nil c : contains (String c "") "" = false.
Proof. reflexivity. Qed.

Lemma contains_char_app c s t :
  contains (String c "") (s +:+ t) =
    contains (String c "") s || contains (String c "") t.
Proof.
  induction s as [| d s IH].
  - reflexivity.
  - rewrite append_cons, !contains_char_cons, IH. now rewrite orb_assoc.
Qed.

Lemma contains_char_rev_app c s acc :
  contains (String c "") (String.rev_app s acc) =
    contains (String c "") s || contains (String c "") acc.
Proof.
  revert acc. induction s as [| d s IH]; intros acc.
  - reflexivity.
  - cbn [String.rev_app]. rewrite IH, !contains_char_cons.
    now destruct (Ascii.eqb c d), (contains (String c "") s).
Qed.

Lemma contains_char_rev c s :
  contains (String c "") (String.rev s) = contains (String c "") s.
Proof.
  unfold String.rev.
  now rewrite contains_char_rev_app, contains_char_nil, orb_false_r.
Qed.

Lemma split_aux_pieces sep s cur :
  contains (String sep "") cur = false ->
  Forall (fun piece => contains (String sep "") piece = false)
    (split_aux sep cur s).
Proof.
  revert cur. induction s as [| c s IH]; intros cur Hcur; cbn [split_aux].
  - constructor; [| constructor]. now rewrite contains_char_rev.
  - destruct (Ascii.eqb c sep) eqn:Hc.
    + constructor; [now rewrite contains_char_rev |]. now apply IH.
    + apply IH. rewrite contains_char_cons, Hcur, orb_false_r.
      now rewrite Ascii.eqb_sym.
Qed.

Lemma split_pieces sep s :
  Forall (fun piece => contains (String sep "") piece = false) (split sep s).
Proof. now apply split_aux_pieces. Qed.

(** The entries kept from a comma-separated list: the non-empty pieces. *)
Lemma kept_pieces_clean s :
  Forall (fun piece => nonempty piece = true /\ contains "," piece = false)
    (filter (fun piece => nonempty piece = true) (split "," s)).
Proof.
  apply List.Forall_forall. intros piece Hin.
  rewrite <- list_elem_of_In in Hin.
  apply list_elem_of_filter in Hin as [Hkeep Hin].
  split; [assumption |].
  pose proof (split_pieces "," s) as Hall.
  rewrite List.Forall_forall in Hall. apply Hall.
  now rewrite <- list_elem_of_In.
Qed.

(** X13: every attendee built from [--attendees] has a non-empty address
    without a comma: empty entries, as in ["a,,b"] or a trailing comma, are
    dropped. *)
Theorem attendee_list_clean s :
  exists emails,
    attendee_list s = JArr (map (fun e => JObj [("email", JStr e)]) emails)
    /\ Forall (fun e => nonempty e = true /\ contains "," e = false) emails.
Proof.
  eexists. split; [reflexivity |]. apply kept_pieces_clean.
Qed.

(** X14: attendees given as two lists joined by a comma are the attendees
    of the first followed by those of the second. *)
Theorem attendee_list_app a b :
  attendee_list (a +:+ "," +:+ b) =
    JArr (items_of (attendee_list a) ++ items_of (attendee_list b))%list.
Proof.
  unfold attendee_list. cbn [items_of].
  change ("," +:+ b) with (String "," b).
  now rewrite split_app, filter_app, map_app.
Qed.

(** ** Event bodies: what each key holds *)


(** ** Running a command step by step *)

Lemma bind_ok {A B : Type} (c : M A) (k : A -> M B) w a w' :
  c w = (inr a, w') -> bind c k w = k a w'.
Proof. intros H. unfold bind. now rewrite H. Qed.

Lemma bind_err {A B : Type} (c : M A) (k : A -> M B) w e w' :
  c w = (inl e, w') -> bind c k w = (inl e, w').
Proof. intros H. unfold bind. now rewrite H. Qed.

Lemma update_body_absent float_truthy fields w :
  update_body float_truthy fields JNull w =
    if nonempty_list fields then (inr (JObj fields), w)
    else (inl no_update_fields, w).
Proof. unfold update_body. cbn. now destruct fields. Qed.

Lemma update_body_override float_truthy fields v w :
  v <> JNull ->
  update_body float_truthy fields v w =
    if py_truth float_truthy v then (inr v, w) else (inl no_update_fields, w).
Proof.
  intros Hv. unfold update_body.
  replace (is_None v) with false by now destruct v.
  now destruct (py_truth float_truthy v).
Qed.

Lemma keys_update_event_fields args :
  keys (update_event_fields args) =
    ((if truthy (Args.summary args) then ["summary"] else [])
     ++ (if truthy (Args.start args) then ["start"] else [])
     ++ (if truthy (Args.end_ args) then ["end"] else [])
     ++ (if truthy (Args.location args) then ["location"] else [])
     ++ (if truthy (Args.description args) then ["description"] else [])
     ++ (if truthy (Args.attendees args) then ["attendees"] else [])
     ++ (if nonempty_list (Args.recurrence args) then ["recurrence"] else [])
    )%list.
Proof.
  unfold update_event_fields, set_if.
  destruct (truthy (Args.summary args)), (truthy (Args.start args)),
    (truthy (Args.end_ args)), (truthy (Args.location args)),
    (truthy (Args.description args)), (truthy (Args.attendees args)),
    (nonempty_list (Args.recurrence args)); reflexivity.
Qed.

Lemma update_event_fields_nonempty args :
  nonempty_list (update_event_fields args) =
    truthy (Args.summary args) || truthy (Args.start args)
    || truthy (Args.end_ args) || truthy (Args.location args)
    || truthy (Args.description args) || truthy (Args.attendees args)
    || nonempty_list (Args.recurrence args).
Proof.
  unfold update_event_fields, set_if.
  destruct (truthy (Args.summary args)), (truthy (Args.start args)),
    (truthy (Args.end_ args)), (truthy (Args.location args)),
    (truthy (Args.description args)), (truthy (Args.attendees args)),
    (nonempty_list (Args.recurrence args)); reflexivity.
Qed.

(** ** Event update *)

(** X16: an update of an event with no [--body], no [--body-file] and none
    of the seven fields fails with the no-fields error once the credential
    is loaded, and sends no request. *)
Theorem cmd_update_event_nothing_supplied
    env float_truthy args w session w1 :
  session_from_token env (Args.token (UpdateArgs.event args))
    (Args.scopes (UpdateArgs.event args)) w = (inr session, w1) ->
  truthy (Args.body (UpdateArgs.event args)) = false ->
  truthy (Args.body_file (UpdateArgs.event args)) = false ->
  truthy (Args.summary (UpdateArgs.event args))
  || truthy (Args.start (UpdateArgs.event args))
  || truthy (Args.end_ (UpdateArgs.event args))
  || truthy (Args.location (UpdateArgs.event args))
  || truthy (Args.description (UpdateArgs.event args))
  || truthy (Args.attendees (UpdateArgs.event args))
  || nonempty_list (Args.recurrence (UpdateArgs.event args)) = false ->
  cmd_update_event env float_truthy args w = (inl no_update_fields, w1).
Proof.
  intros Hsession Hbody Hfile Hnone. unfold cmd_update_event.
  rewrite (bind_ok _ _ _ _ _ Hsession).
  rewrite (bind_ok _ _ _ _ _ (load_json_input_absent env _ _ w1 Hbody Hfile)).
  apply bind_err.
  now rewrite update_body_absent, update_event_fields_nonempty, Hnone.
Qed.

Lemma cmd_update_event_nothing_supplied_witness :
  cmd_update_event Toy.env Desk.float_truthy (Desk.untouched "/tok/live")
    Toy.world0 = (inl no_update_fields, Toy.world0).
Proof.
  exact (cmd_update_event_nothing_supplied Toy.env Desk.float_truthy
           (Desk.untouched "/tok/live") Toy.world0 Toy.session Toy.world0
           eq_refl eq_refl eq_refl eq_refl).
Defined.

(** X17: an override that is given but false as a Python value (the empty
    object, an empty list, zero, an empty string, [false]) is refused by the
    update with the no-fields error; any other override is sent as the body
    of one PATCH, as it is. *)
Theorem cmd_update_event_override
    env float_truthy args w session w1 v w2 :
  session_from_token env (Args.token (UpdateArgs.event args))
    (Args.scopes (UpdateArgs.event args)) w = (inr session, w1) ->
  load_json_input env (Args.body (UpdateArgs.event args))
    (Args.body_file (UpdateArgs.event args)) w1 = (inr v, w2) ->
  v <> JNull ->
  cmd_update_event env float_truthy args w =
    if py_truth float_truthy v
    then request env session "PATCH"
           (event_path (Args.calendar_id (UpdateArgs.event args))
              (UpdateArgs.event_id args))
           (send_updates_params (UpdateArgs.event args)) v
           CALENDAR_BASE_URL w2
    else (inl no_update_fields, w2).
Proof.
  intros Hsession Hinput Hv. unfold cmd_update_event.
  rewrite (bind_ok _ _ _ _ _ Hsession), (bind_ok _ _ _ _ _ Hinput).
  pose proof (update_body_override float_truthy
                (update_event_fields (UpdateArgs.event args)) v w2 Hv) as Hb.
  destruct (py_truth float_truthy v).
  - now rewrite (bind_ok _ _ _ _ _ Hb).
  - now rewrite (bind_err _ _ _ _ _ Hb).
Qed.

Lemma cmd_update_event_override_witness :
  cmd_update_event Toy.env Desk.float_truthy (Desk.emptied "/tok/live")
    Toy.world0 = (inl no_update_fields, Toy.world0).
Proof.
  refine (cmd_update_event_override Toy.env Desk.float_truthy
            (Desk.emptied "/tok/live") Toy.world0 Toy.session Toy.world0
            (JObj []) Toy.world0 eq_refl eq_refl _).
  discriminate.
Defined.

(** X18: an update of an event with no override and at least one field
    sends one PATCH to the event's path whose body holds exactly the keys
    of the fields supplied, in the order summary, start, end, location,
    description, attendees, recurrence. *)
Theorem cmd_update_event_fields_sent env float_truthy args w session w1 :
  session_from_token env (Args.token (UpdateArgs.event args))
    (Args.scopes (UpdateArgs.event args)) w = (inr session, w1) ->
  truthy (Args.body (UpdateArgs.event args)) = false ->
  truthy (Args.body_file (UpdateArgs.event args)) = false ->
  truthy (Args.summary (UpdateArgs.event args))
  || truthy (Args.start (UpdateArgs.event args))
  || truthy (Args.end_ (UpdateArgs.event args))
  || truthy (Args.location (UpdateArgs.event args))
  || truthy (Args.description (UpdateArgs.event args))
  || truthy (Args.attendees (UpdateArgs.event args))
  || nonempty_list (Args.recurrence (UpdateArgs.event args)) = true ->
  cmd_update_event env float_truthy args w =
    request env session "PATCH"
      (event_path (Args.calendar_id (UpdateArgs.event args))
         (UpdateArgs.event_id args))
      (send_updates_params (UpdateArgs.event args))
      (JObj (update_event_fields (UpdateArgs.event args)))
      CALENDAR_BASE_URL w1
  /\ keys (update_event_fields (UpdateArgs.event args)) =
       ((if truthy (Args.summary (UpdateArgs.event args))
         then ["summary"] else [])
        ++ (if truthy (Args.start (UpdateArgs.event args))
            then ["start"] else [])
        ++ (if truthy (Args.end_ (UpdateArgs.event args)) then ["end"] else [])
        ++ (if truthy (Args.location (UpdateArgs.event args))
            then ["location"] else [])
        ++ (if truthy (Args.description (UpdateArgs.event args))
            then ["description"] else [])
        ++ (if truthy (Args.attendees (UpdateArgs.event args))
            then ["attendees"] else [])
        ++ (if nonempty_list (Args.recurrence (UpdateArgs.event args))
            then ["recurrence"] else []))%list.
Proof.
  intros Hsession Hbody Hfile Hsome.
  split; [| apply keys_update_event_fields].
  unfold cmd_update_event.
  rewrite (bind_ok _ _ _ _ _ Hsession).
  rewrite (bind_ok _ _ _ _ _ (load_json_input_absent env _ _ w1 Hbody Hfile)).
  erewrite bind_ok; [reflexivity |].
  now rewrite update_body_absent, update_event_fields_nonempty, Hsome.
Qed.

Lemma cmd_update_event_fields_sent_witness :
  cmd_update_event Toy.env Desk.float_truthy (Desk.rename "/tok/live")
    Toy.world0 =
    request Toy.env Toy.session "PATCH" "/calendars/primary/events/ev1" JNull
      (JObj [("summary", JStr "Retro"); ("location", JStr "Room 2")])
      CALENDAR_BASE_URL Toy.world0
  /\ keys (update_event_fields (UpdateArgs.event (Desk.rename "/tok/live")))
     = ["summary"; "location"].
Proof.
  exact (cmd_update_event_fields_sent Toy.env Desk.float_truthy
           (Desk.rename "/tok/live") Toy.world0 Toy.session Toy.world0
           eq_refl eq_refl eq_refl eq_refl).
Defined.

(** ** Tasks and task lists *)

Lemma keys_task_body_from_args args :
  keys (task_body_from_args args) =
    ((if truthy (TaskArgs.title args) then ["title"] else [])
     ++ (if truthy (TaskArgs.notes args) then ["notes"] else [])
     ++ (if truthy (TaskArgs.due args) then ["due"] else [])
     ++ (if truthy (TaskArgs.status args) then ["status"] else [])
     ++ (if truthy (TaskArgs.completed args) then ["completed"] else [])
    )%list.
Proof.
  unfold task_body_from_args, set_if.
  destruct (truthy (TaskArgs.title args)), (truthy (TaskArgs.notes args)),
    (truthy (TaskArgs.due args)), (truthy (TaskArgs.status args)),
    (truthy (TaskArgs.completed args)); reflexivity.
Qed.

Lemma task_body_from_args_nonempty args :
  nonempty_list (task_body_from_args args) =
    truthy (TaskArgs.title args) || truthy (TaskArgs.notes args)
    || truthy (TaskArgs.due args) || truthy (TaskArgs.status args)
    || truthy (TaskArgs.completed args).
Proof.
  unfold task_body_from_args, set_if.
  destruct (truthy (TaskArgs.title args)), (truthy (TaskArgs.notes args)),
    (truthy (TaskArgs.due args)), (truthy (TaskArgs.status args)),
    (truthy (TaskArgs.completed args)); reflexivity.
Qed.

Lemma titled_body_absent args fields w :
  titled_body args fields JNull w =
    if truthy (TaskArgs.title args) then (inr (JObj fields), w)
    else (inl title_required, w).
Proof.
  unfold titled_body. cbn [is_None].
  now destruct (truthy (TaskArgs.title args)).
Qed.



Lemma task_body_from_args_lookup args :
  dict_get (task_body_from_args args) "title"
    = (if truthy (TaskArgs.title args)
       then Some (of_opt_str (TaskArgs.title args)) else None)
  /\ dict_get (task_body_from_args args) "notes"
       = (if truthy (TaskArgs.notes args)
          then Some (of_opt_str (TaskArgs.notes args)) else None)
  /\ dict_get (task_body_from_args args) "due"
       = (if truthy (TaskArgs.due args)
          then Some (of_opt_str (TaskArgs.due args)) else None)
  /\ dict_get (task_body_from_args args) "status"
       = (if truthy (TaskArgs.status args)
          then Some (of_opt_str (TaskArgs.status args)) else None)
  /\ dict_get (task_body_from_args args) "completed"
       = (if truthy (TaskArgs.completed args)
          then Some (of_opt_str (TaskArgs.completed args)) else None).
Proof.
  unfold task_body_from_args, set_if.
  destruct (truthy (TaskArgs.title args)), (truthy (TaskArgs.notes args)),
    (truthy (TaskArgs.due args)), (truthy (TaskArgs.status args)),
    (truthy (TaskArgs.completed args)); repeat split.
Qed.

(** X20: a task updated without override sends one PATCH to the task's path
    when at least one field is given, and fails with the no-fields error,
    sending nothing, when none is.  The body sent holds exactly the keys of
    the fields given, in the order title, notes, due, status, completed,
    each with the value given for it. *)
Theorem cmd_update_task_structured env float_truthy args w session w1 :
  session_from_token env (TaskArgs.token args) (TaskArgs.scopes args) w
    = (inr session, w1) ->
  truthy (TaskArgs.body args) = false ->
  truthy (TaskArgs.body_file args) = false ->
  cmd_update_task env float_truthy args w =
    (if truthy (TaskArgs.title args) || truthy (TaskArgs.notes args)
        || truthy (TaskArgs.due args) || truthy (TaskArgs.status args)
        || truthy (TaskArgs.completed args)
     then request env session "PATCH"
            (task_path (TaskArgs.tasklist args) (TaskArgs.task_id args))
            JNull (JObj (task_body_from_args args)) TASKS_BASE_URL w1
     else (inl no_update_fields, w1))
  /\ keys (task_body_from_args args) =
       ((if truthy (TaskArgs.title args) then ["title"] else [])
        ++ (if truthy (TaskArgs.notes args) then ["notes"] else [])
        ++ (if truthy (TaskArgs.due args) then ["due"] else [])
        ++ (if truthy (TaskArgs.status args) then ["status"] else [])
        ++ (if truthy (TaskArgs.completed args) then ["completed"] else [])
       )%list
  /\ dict_get (task_body_from_args args) "title"
       = (if truthy (TaskArgs.title args)
          then Some (of_opt_str (TaskArgs.title args)) else None)
  /\ dict_get (task_body_from_args args) "notes"
       = (if truthy (TaskArgs.notes args)
          then Some (of_opt_str (TaskArgs.notes args)) else None)
  /\ dict_get (task_body_from_args args) "due"
       = (if truthy (TaskArgs.due args)
          then Some (of_opt_str (TaskArgs.due args)) else None)
  /\ dict_get (task_body_from_args args) "status"
       = (if truthy (TaskArgs.status args)
          then Some (of_opt_str (TaskArgs.status args)) else None)
  /\ dict_get (task_body_from_args args) "completed"
       = (if truthy (TaskArgs.completed args)
          then Some (of_opt_str (TaskArgs.completed args)) else None).
Proof.
  intros Hsession Hbody Hfile.
  split; [| split; [apply keys_task_body_from_args
                   | apply task_body_from_args_lookup]].
  unfold cmd_update_task.
  rewrite (bind_ok _ _ _ _ _ Hsession).
  rewrite (bind_ok _ _ _ _ _ (load_json_input_absent env _ _ w1 Hbody Hfile)).
  pose proof (update_body_absent float_truthy (task_body_from_args args) w1)
    as Hb.
  rewrite task_body_from_args_nonempty in Hb.
  destruct (truthy (TaskArgs.title args) || truthy (TaskArgs.notes args)
            || truthy (TaskArgs.due args) || truthy (TaskArgs.status args)
            || truthy (TaskArgs.completed args)).
  - now rewrite (bind_ok _ _ _ _ _ Hb).
  - now rewrite (bind_err _ _ _ _ _ Hb).
Qed.

Lemma cmd_update_task_structured_witness :
  cmd_update_task Toy.env Desk.float_truthy (Desk.untitled "/tok/live")
    Toy.world0 =
    request Toy.env Toy.session "PATCH" "/lists/inbox/tasks/t1" JNull
      (JObj [("notes", JStr "bring a can")]) TASKS_BASE_URL Toy.world0.
Proof.
  exact (proj1 (cmd_update_task_structured Toy.env Desk.float_truthy
                  (Desk.untitled "/tok/live") Toy.world0 Toy.session
                  Toy.world0 eq_refl eq_refl eq_refl)).
Defined.

(** X21: a task list is created and renamed by its title alone: without
    override and without title the creation fails with the title error and
    the update with the no-fields error; with a title both send the body
    [{"title": title}], by POST to the lists and by PATCH to the list. *)
Theorem tasklist_commands_structured env float_truthy args w session w1 :
  session_from_token env (TaskArgs.token args) (TaskArgs.scopes args) w
    = (inr session, w1) ->
  truthy (TaskArgs.body args) = false ->
  truthy (TaskArgs.body_file args) = false ->
  (truthy (TaskArgs.title args) = false ->
   cmd_create_tasklist env args w = (inl title_required, w1)
   /\ cmd_update_tasklist env float_truthy args w = (inl no_update_fields, w1))
  /\ (truthy (TaskArgs.title args) = true ->
      cmd_create_tasklist env args w =
        request env session "POST" "/users/@me/lists" JNull
          (JObj [("title", of_opt_str (TaskArgs.title args))])
          TASKS_BASE_URL w1
      /\ cmd_update_tasklist env float_truthy args w =
           request env session "PATCH" (tasklist_path (TaskArgs.tasklist args))
             JNull (JObj [("title", of_opt_str (TaskArgs.title args))])
             TASKS_BASE_URL w1).
Proof.
  intros Hsession Hbody Hfile.
  unfold cmd_create_tasklist, cmd_update_tasklist.
  rewrite !(bind_ok _ _ _ _ _ Hsession).
  rewrite !(bind_ok _ _ _ _ _ (load_json_input_absent env _ _ w1 Hbody Hfile)).
  split; intros Htitle; rewrite Htitle; cbn [set_if]; split.
  - apply bind_err. now rewrite titled_body_absent, Htitle.
  - apply bind_err. now rewrite update_body_absent.
  - erewrite bind_ok; [reflexivity |]. now rewrite titled_body_absent, Htitle.
  - erewrite bind_ok; [reflexivity |]. now rewrite update_body_absent.
Qed.

Lemma tasklist_commands_structured_witness :
  cmd_create_tasklist Toy.env (Desk.untitled "/tok/live") Toy.world0 =
    (inl title_required, Toy.world0)
  /\ cmd_update_tasklist Toy.env Desk.float_truthy (Desk.chore "/tok/live")
       Toy.world0 =
       request Toy.env Toy.session "PATCH" "/users/@me/lists/inbox" JNull
         (JObj [("title", JStr "Water the plants")]) TASKS_BASE_URL Toy.world0.
Proof.
  split.
  - exact (proj1 (proj1 (tasklist_commands_structured Toy.env Desk.float_truthy
                    (Desk.untitled "/tok/live") Toy.world0 Toy.session
                    Toy.world0 eq_refl eq_refl eq_refl) eq_refl)).
  - exact (proj2 (proj2 (tasklist_commands_structured Toy.env Desk.float_truthy
                    (Desk.chore "/tok/live") Toy.world0 Toy.session
                    Toy.world0 eq_refl eq_refl eq_refl) eq_refl)).
Defined.

(** ** Free/busy and deletion *)

Lemma append_nil_r s : s +:+ "" = s.
Proof.
  induction s as [| c s IH]; [reflexivity |].
  now rewrite append_cons, IH.
Qed.

Lemma split_aux_cons sep cur s :
  exists piece rest, split_aux sep cur s = piece :: rest.
Proof.
  revert cur. induction s as [| c s IH]; intros cur; cbn [split_aux].
  - now eexists _, _.
  - destruct (Ascii.eqb c sep); [now eexists _, _ | apply IH].
Qed.

Lemma rev_cons c s : String.rev (String c s) = String.rev s +:+ String c "".
Proof.
  unfold String.rev. cbn [String.rev_app].
  now rewrite (rev_app_acc s (String c "")).
Qed.

Lemma join_split_aux sep s cur :
  join (String sep "") (split_aux sep cur s) = String.rev cur +:+ s.
Proof.
  revert cur. induction s as [| c s IH]; intros cur; cbn [split_aux].
  - cbn [join]. now rewrite append_nil_r.
  - destruct (Ascii.eqb c sep) eqn:Hc.
    + apply Ascii.eqb_eq in Hc. subst c.
      destruct (split_aux_cons sep "" s) as (piece & rest & Hpieces).
      specialize (IH ""). rewrite Hpieces in *.
      change (join (String sep "") (String.rev cur :: piece :: rest))
        with (String.rev cur +:+ String sep ""
              +:+ join (String sep "") (piece :: rest)).
      rewrite IH. reflexivity.
    + rewrite IH, rev_cons, append_assoc. reflexivity.
Qed.

(** The pieces of a split, joined by the separator, are the string. *)
Lemma join_split sep s : join (String sep "") (split sep s) = s.
Proof. unfold split. now rewrite join_split_aux. Qed.

Lemma kept_pieces_filter (pieces : list string) :
  filter (fun piece => nonempty piece = true) pieces
    = List.filter nonempty pieces.
Proof.
  induction pieces as [| x l IH]; [reflexivity |].
  rewrite filter_cons. cbn [List.filter].
  destruct (nonempty x); destruct (decide _); congruence.
Qed.

(** X22: a free/busy query is one POST to [/freeBusy] whose body holds
    timeMin, timeMax and items, then timeZone when a zone is given, with the
    two times as given.  The items are the pieces of [--calendars] between
    its commas, in their order and without the empty ones: comma-free
    pieces that, joined by commas, give the option back. *)
Theorem cmd_freebusy_body env args w session w1 :
  session_from_token env (FreeBusyArgs.token args) (FreeBusyArgs.scopes args) w
    = (inr session, w1) ->
  cmd_freebusy env args w =
    request env session "POST" "/freeBusy" JNull (JObj (freebusy_body args))
      CALENDAR_BASE_URL w1
  /\ keys (freebusy_body args) =
       (["timeMin"; "timeMax"; "items"]
        ++ (if truthy (FreeBusyArgs.time_zone args) then ["timeZone"] else [])
       )%list
  /\ dict_get (freebusy_body args) "timeMin"
       = Some (JStr (FreeBusyArgs.time_min args))
  /\ dict_get (freebusy_body args) "timeMax"
       = Some (JStr (FreeBusyArgs.time_max args))
  /\ dict_get (freebusy_body args) "timeZone"
       = (if truthy (FreeBusyArgs.time_zone args)
          then Some (of_opt_str (FreeBusyArgs.time_zone args)) else None)
  /\ exists pieces,
       join "," pieces = FreeBusyArgs.calendars args
       /\ Forall (fun piece => contains "," piece = false) pieces
       /\ dict_get (freebusy_body args) "items"
            = Some (JArr (map (fun i => JObj [("id", JStr i)])
                            (List.filter nonempty pieces))).
Proof.
  intros Hsession.
  split; [unfold cmd_freebusy; now rewrite (bind_ok _ _ _ _ _ Hsession) |].
  assert (Hitems : dict_get (freebusy_body args) "items"
                   = Some (calendar_items (FreeBusyArgs.calendars args))).
  { unfold freebusy_body, set_if.
    now destruct (truthy (FreeBusyArgs.time_zone args)). }
  rewrite Hitems. unfold calendar_items. rewrite kept_pieces_filter.
  unfold freebusy_body, set_if.
  destruct (truthy (FreeBusyArgs.time_zone args));
    repeat (split; [reflexivity |]);
    exists (split "," (FreeBusyArgs.calendars args));
    (split; [apply join_split |]); (split; [apply split_pieces | reflexivity]).
Qed.

Lemma cmd_freebusy_body_witness :
  cmd_freebusy Toy.env Desk.busy Toy.world0 =
    request Toy.env Toy.session "POST" "/freeBusy" JNull
      (JObj [("timeMin", JStr "2024-01-01T00:00:00Z");
             ("timeMax", JStr "2024-01-02T00:00:00Z");
             ("items", JArr [JObj [("id", JStr "primary")];
                             JObj [("id", JStr "team@x.org")]])])
      CALENDAR_BASE_URL Toy.world0.
Proof.
  exact (proj1 (cmd_freebusy_body Toy.env Desk.busy Toy.world0 Toy.session
                  Toy.world0 eq_refl)).
Defined.

(** X23: a deletion sends one DELETE without body to the event's path, and
    a 204 answer comes back as [{"status": "deleted"}]. *)
Theorem cmd_delete_event_deleted env args w session w1 response :
  session_from_token env (DeleteArgs.token args) (DeleteArgs.scopes args) w
    = (inr session, w1) ->
  http env session "DELETE"
    (CALENDAR_BASE_URL
     +:+ event_path (DeleteArgs.calendar_id args) (DeleteArgs.event_id args))
    (if truthy (DeleteArgs.send_updates args)
     then JObj [("sendUpdates", of_opt_str (DeleteArgs.send_updates args))]
     else JNull)
    JNull = inr response ->
  status_code response = 204 ->
  cmd_delete_event env args w =
    (inr (JObj [("status", JStr "deleted")]),
     emit (HttpCall "DELETE"
             (CALENDAR_BASE_URL
              +:+ event_path (DeleteArgs.calendar_id args)
                    (DeleteArgs.event_id args))
             (if truthy (DeleteArgs.send_updates args)
              then JObj [("sendUpdates",
                          of_opt_str (DeleteArgs.send_updates args))]
              else JNull)
             JNull) w1).
Proof.
  intros Hsession Hhttp H204. unfold cmd_delete_event.
  rewrite (bind_ok _ _ _ _ _ Hsession).
  unfold request.
  replace (resolve_url
             (event_path (DeleteArgs.calendar_id args)
                (DeleteArgs.event_id args)) CALENDAR_BASE_URL)
    with (CALENDAR_BASE_URL
          +:+ event_path (DeleteArgs.calendar_id args)
                (DeleteArgs.event_id args))
    by (symmetry; apply resolve_url_rooted).
  unfold bind, session_request. rewrite Hhttp, H204. reflexivity.
Qed.

Lemma cmd_delete_event_deleted_witness :
  cmd_delete_event Toy.env
    {| DeleteArgs.token := "/tok/live"; DeleteArgs.scopes := [];
       DeleteArgs.calendar_id := "primary"; DeleteArgs.event_id := "ev1";
       DeleteArgs.send_updates := Some "all" |} Toy.world0 =
    (inr (JObj [("status", JStr "deleted")]),
     emit (HttpCall "DELETE"
             "https://www.googleapis.com/calendar/v3/calendars/primary/events/ev1"
             (JObj [("sendUpdates", JStr "all")]) JNull) Toy.world0).
Proof.
  exact (cmd_delete_event_deleted Toy.env
           {| DeleteArgs.token := "/tok/live"; DeleteArgs.scopes := [];
              DeleteArgs.calendar_id := "primary"; DeleteArgs.event_id := "ev1";
              DeleteArgs.send_updates := Some "all" |}
           Toy.world0 Toy.session Toy.world0
           {| status_code := 204; content_type := None; text := "gone" |}
           eq_refl eq_refl eq_refl).
Defined.

(** ** The generic call *)

(** X24: [cmd_call] resolves its parameters and its body before it loads
    the credential: a failure of either resolver, such as two sources for
    one input, ends the command with the world untouched, with no token
    file read and no network call, even when there is no token file. *)
Theorem cmd_call_input_error_first env upper args w e :
  (fst (load_json_input env (CallArgs.params args)
          (CallArgs.params_file args) w) = inl e ->
   cmd_call env upper args w = (inl e, w))
  /\ (forall params,
        fst (load_json_input env (CallArgs.params args)
               (CallArgs.params_file args) w) = inr params ->
        fst (load_json_input env (CallArgs.body args)
               (CallArgs.body_file args) w) = inl e ->
        cmd_call env upper args w = (inl e, w)).
Proof.
  assert (Hrun : forall raw path r,
            fst (load_json_input env raw path w) = r ->
            load_json_input env raw path w = (r, w)).
  { intros raw path r Hr.
    pose proof (load_json_input_keeps_world env raw path w) as Hw.
    destruct (load_json_input env raw path w) as [r' w'].
    cbn in *. now subst. }
  unfold cmd_call. split.
  - intros Hfail. apply Hrun in Hfail.
    now rewrite (bind_err _ _ _ _ _ Hfail).
  - intros params Hparams Hfail. apply Hrun in Hparams, Hfail.
    now rewrite (bind_ok _ _ _ _ _ Hparams), (bind_err _ _ _ _ _ Hfail).
Qed.

Lemma cmd_call_input_error_first_witness :
  cmd_call Toy.env Desk.upper Desk.clash Toy.world0 =
    (inl (ValueError
            "Use only one of --body/--params or --body-file/--params-file"),
     Toy.world0).
Proof.
  exact (proj1 (cmd_call_input_error_first Toy.env Desk.upper Desk.clash
                  Toy.world0 _) eq_refl).
Defined.

(** X25: with both inputs resolved and the credential loaded, [cmd_call]
    makes one call with the method in upper case and the resolved values;
    the call goes to the calendar API unless the path is a full URL, which
    is the only way for it to reach the tasks API. *)
Theorem cmd_call_dispatch env upper args w params body session w1 :
  load_json_input env (CallArgs.params args) (CallArgs.params_file args) w
    = (inr params, w) ->
  load_json_input env (CallArgs.body args) (CallArgs.body_file args) w
    = (inr body, w) ->
  session_from_token env (CallArgs.token args) (CallArgs.scopes args) w
    = (inr session, w1) ->
  cmd_call env upper args w =
    request env session (upper (CallArgs.method args)) (CallArgs.path args)
      params body CALENDAR_BASE_URL w1
  /\ snd (cmd_call env upper args w) =
       emit (HttpCall (upper (CallArgs.method args))
               (if startswith (CallArgs.path args) "http://"
                   || startswith (CallArgs.path args) "https://"
                then CallArgs.path args
                else CALENDAR_BASE_URL +:+ normalize_path (CallArgs.path args))
               params body) w1.
Proof.
  intros Hparams Hbody Hsession.
  assert (Hrun : cmd_call env upper args w =
            request env session (upper (CallArgs.method args))
              (CallArgs.path args) params body CALENDAR_BASE_URL w1).
  { unfold cmd_call.
    now rewrite (bind_ok _ _ _ _ _ Hparams), (bind_ok _ _ _ _ _ Hbody),
      (bind_ok _ _ _ _ _ Hsession). }
  split; [exact Hrun |].
  rewrite Hrun. unfold request, response_json. run.
  destruct (http env session (upper (CallArgs.method args))
              (resolve_url (CallArgs.path args) CALENDAR_BASE_URL) params body)
    as [e | response]; cbn; [reflexivity |].
  destruct (400 <=? status_code response); cbn.
  - destruct (is_json (default "" (content_type response))); cbn;
      [| reflexivity].
    now destruct (json_loads env (text response)).
  - destruct (status_code response =? 204); cbn; [reflexivity |].
    now destruct (is_json (default "" (content_type response))).
Qed.

Lemma cmd_call_dispatch_witness :
  snd (cmd_call Toy.env Desk.upper
         {| CallArgs.token := "/tok/live"; CallArgs.scopes := [];
            CallArgs.method := "GET";
            CallArgs.path := "https://tasks.googleapis.com/tasks/v1/users/@me/lists";
            CallArgs.params := None; CallArgs.params_file := None;
            CallArgs.body := None; CallArgs.body_file := None |} Toy.world0) =
    emit (HttpCall "GET"
            "https://tasks.googleapis.com/tasks/v1/users/@me/lists"
            JNull JNull) Toy.world0.
Proof.
  exact (proj2 (cmd_call_dispatch Toy.env Desk.upper
           {| CallArgs.token := "/tok/live"; CallArgs.scopes := [];
              CallArgs.method := "GET";
              CallArgs.path := "https://tasks.googleapis.com/tasks/v1/users/@me/lists";
              CallArgs.params := None; CallArgs.params_file := None;
              CallArgs.body := None; CallArgs.body_file := None |}
           Toy.world0 JNull JNull Toy.session Toy.world0
           eq_refl eq_refl eq_refl)).
Defined.

(** ** No token file *)

Lemma session_from_token_missing env token_path scopes w :
  files w !! resolve env token_path = None ->
  session_from_token env token_path scopes w =
    (inl (FileNotFoundError
            ("Token file not found: " +:+ resolve env token_path)), w).
Proof.
  intros Hfile. unfold session_from_token.
  apply bind_err. now apply load_credentials_missing.
Qed.

(** X26: without a token file every named command stops at the credential
    with [FileNotFoundError] naming the resolved path: no input is read, no
    field is checked and no call is made. *)
Theorem named_commands_need_token_file env float_truthy w :
  (forall args,
     files w !! resolve env (Args.token args) = None ->
     cmd_create_event env args w =
       (inl (FileNotFoundError
               ("Token file not found: " +:+ resolve env (Args.token args))),
        w))
  /\ (forall args,
        files w !! resolve env (Args.token (UpdateArgs.event args)) = None ->
        cmd_update_event env float_truthy args w =
          (inl (FileNotFoundError
                  ("Token file not found: "
                   +:+ resolve env (Args.token (UpdateArgs.event args)))), w))
  /\ (forall args,
        files w !! resolve env (DeleteArgs.token args) = None ->
        cmd_delete_event env args w =
          (inl (FileNotFoundError
                  ("Token file not found: "
                   +:+ resolve env (DeleteArgs.token args))), w))
  /\ (forall args,
        files w !! resolve env (FreeBusyArgs.token args) = None ->
        cmd_freebusy env args w =
          (inl (FileNotFoundError
                  ("Token file not found: "
                   +:+ resolve env (FreeBusyArgs.token args))), w))
  /\ (forall args failure,
        files w !! resolve env (TaskArgs.token args) = None ->
        failure =
          (inl (FileNotFoundError
                  ("Token file not found: "
                   +:+ resolve env (TaskArgs.token args))), w) ->
        cmd_create_tasklist env args w = failure
        /\ cmd_update_tasklist env float_truthy args w = failure
        /\ cmd_create_task env args w = failure
        /\ cmd_update_task env float_truthy args w = failure).
Proof.
  assert (Hstop : forall (A : Type) token_path scopes (k : _ -> M A),
            files w !! resolve env token_path = None ->
            bind (session_from_token env token_path scopes) k w =
              (inl (FileNotFoundError
                      ("Token file not found: " +:+ resolve env token_path)),
               w)).
  { intros A token_path scopes k Hfile.
    apply bind_err. now apply session_from_token_missing. }
  split; [| split; [| split; [| split]]].
  - intros args Hfile. now apply Hstop.
  - intros args Hfile. now apply Hstop.
  - intros args Hfile. now apply Hstop.
  - intros args Hfile. now apply Hstop.
  - intros args failure Hfile ->. repeat split; now apply Hstop.
Qed.

Lemma named_commands_need_token_file_witness :
  cmd_update_event Toy.env Desk.float_truthy (Desk.rename "/tok/none")
    Toy.world0 =
    (inl (FileNotFoundError "Token file not found: /tok/none"), Toy.world0)
  /\ cmd_create_task Toy.env (Desk.chore "/tok/none") Toy.world0 =
       (inl (FileNotFoundError "Token file not found: /tok/none"), Toy.world0).
Proof.
  split.
  - exact (proj1 (proj2 (named_commands_need_token_file Toy.env
                    Desk.float_truthy Toy.world0))
             (Desk.rename "/tok/none") eq_refl).
  - exact (proj1 (proj2 (proj2 (proj2 (proj2 (proj2
                    (named_commands_need_token_file Toy.env Desk.float_truthy
                       Toy.world0))))
                    (Desk.chore "/tok/none") _ eq_refl eq_refl))).
Defined.

(** ** [parse_bool] *)

Lemma is_space_lower_char c : is_space (lower_char c) = is_space c.
Proof. now destruct c as [[] [] [] [] [] [] [] []]. Qed.

Lemma lower_char_idem c : lower_char (lower_char c) = lower_char c.
Proof. now destruct c as [[] [] [] [] [] [] [] []]. Qed.

Lemma lower_idem s : lower (lower s) = lower s.
Proof.
  induction s as [| c s IH]; [reflexivity |].
  cbn [lower]. now rewrite lower_char_idem, IH.
Qed.

Lemma lower_rev_app s acc :
  lower (String.rev_app s acc) = String.rev_app (lower s) (lower acc).
Proof.
  revert acc. induction s as [| c s IH]; intros acc; [reflexivity |].
  cbn [String.rev_app lower]. now rewrite IH.
Qed.

Lemma lower_rev s : lower (String.rev s) = String.rev (lower s).
Proof. unfold String.rev. now rewrite lower_rev_app. Qed.

Lemma lstrip_lower s : lstrip (lower s) = lower (lstrip s).
Proof.
  induction s as [| c s IH]; [reflexivity |].
  cbn [lower lstrip]. rewrite is_space_lower_char.
  now destruct (is_space c).
Qed.

Lemma strip_lower s : strip (lower s) = lower (strip s).
Proof.
  unfold strip, rstrip.
  now rewrite lstrip_lower, <- lower_rev, lstrip_lower, lower_rev.
Qed.

(** X27: [parse_bool] reads its value without regard to case: two values
    with the same lower case get the same answer, so [TRUE], [True] and
    [true] are one. *)
Theorem parse_bool_case_insensitive a b :
  lower a = lower b -> parse_bool a = parse_bool b.
Proof.
  intros Hsame. unfold parse_bool.
  assert (Hnorm : forall v, lower (strip v) = lower (strip (lower v))).
  { intros v. now rewrite strip_lower, lower_idem. }
  now rewrite (Hnorm a), (Hnorm b), Hsame.
Qed.

Lemma parse_bool_case_insensitive_witness :
  parse_bool "YES" = parse_bool "yes".
Proof. exact (parse_bool_case_insensitive "YES" "yes" eq_refl). Defined.

Lemma rev_app_app a b acc :
  String.rev_app (a +:+ b) acc = String.rev_app b (String.rev_app a acc).
Proof.
  revert acc. induction a as [| c a IH]; intros acc; [reflexivity |].
  rewrite append_cons. cbn [String.rev_app]. apply IH.
Qed.

Lemma blank_rev_app s acc :
  blank (String.rev_app s acc) = blank s && blank acc.
Proof.
  revert acc. induction s as [| c s IH]; intros acc; [reflexivity |].
  cbn [String.rev_app blank]. rewrite IH. cbn [blank].
  now destruct (is_space c), (blank s).
Qed.

Lemma lstrip_blank s : blank s = true -> lstrip s = "".
Proof.
  induction s as [| c s IH]; [reflexivity |].
  cbn [blank lstrip]. destruct (is_space c); [exact IH | discriminate].
Qed.

Lemma lstrip_blank_app l s : blank l = true -> lstrip (l +:+ s) = lstrip s.
Proof.
  induction l as [| c l IH]; [reflexivity |].
  rewrite append_cons. cbn [blank lstrip].
  destruct (is_space c); [exact IH | discriminate].
Qed.

Lemma lstrip_app_text v r : blank v = false -> lstrip (v +:+ r) = lstrip v +:+ r.
Proof.
  induction v as [| c v IH]; [discriminate |].
  rewrite append_cons. cbn [blank lstrip].
  destruct (is_space c); [exact IH | reflexivity].
Qed.

Lemma rstrip_app_blank s r : blank r = true -> rstrip (s +:+ r) = rstrip s.
Proof.
  intros Hr. unfold rstrip, String.rev.
  rewrite rev_app_app.
  rewrite (rev_app_acc r (String.rev_app s "")).
  rewrite lstrip_blank_app; [reflexivity |].
  now rewrite blank_rev_app, Hr.
Qed.

Lemma strip_outer_space l v r :
  blank l = true -> blank r = true -> strip (l +:+ v +:+ r) = strip v.
Proof.
  intros Hl Hr. unfold strip. rewrite lstrip_blank_app by assumption.
  destruct (blank v) eqn:Hv.
  - rewrite (lstrip_blank v Hv), lstrip_blank_app, (lstrip_blank r Hr)
      by assumption.
    reflexivity.
  - rewrite lstrip_app_text by assumption. now apply rstrip_app_blank.
Qed.

(** X28: [parse_bool] ignores white space around its value, and a value of
    white space only, the empty value included, is refused. *)
Theorem parse_bool_ignores_outer_space l v r :
  blank l = true -> blank r = true ->
  parse_bool (l +:+ v +:+ r) = parse_bool v
  /\ (blank v = true ->
      parse_bool v =
        inl (ArgumentTypeError "Expected a boolean value (true/false).")).
Proof.
  intros Hl Hr. unfold parse_bool. split.
  - now rewrite strip_outer_space.
  - intros Hv. unfold strip. now rewrite (lstrip_blank v Hv).
Qed.

Lemma parse_bool_ignores_outer_space_witness :
  parse_bool (" " +:+ "No" +:+ "  ") = parse_bool "No"
  /\ parse_bool "   " =
       inl (ArgumentTypeError "Expected a boolean value (true/false).").
Proof.
  split.
  - exact (proj1 (parse_bool_ignores_outer_space " " "No" "  "
                    eq_refl eq_refl)).
  - exact (proj2 (parse_bool_ignores_outer_space "" "   " ""
                    eq_refl eq_refl) eq_refl).
Defined.

Example parse_bool_words :
  parse_bool " TRUE " = inr true /\ parse_bool "y" = inr true
  /\ parse_bool "0" = inr false /\ parse_bool "No" = inr false
  /\ parse_bool "maybe" =
       inl (ArgumentTypeError "Expected a boolean value (true/false).").
Proof. repeat split. Qed.

(** ** The refusing provider and the garbled gateway *)

Lemma load_credentials_refresh_failure_keeps_file_witness :
  load_credentials Desk.flaky "/tok/stale" [] Toy.world0 =
    (inl (RefreshError "invalid_grant"),
     {| files := Toy.disk; log := [TokenRefresh Toy.stale] |}).
Proof.
  exact (load_credentials_refresh_failure_keeps_file Desk.flaky "/tok/stale" []
           Toy.world0 "ya29.stale" Toy.stale (RefreshError "invalid_grant")
           eq_refl eq_refl eq_refl eq_refl eq_refl).
Defined.

Lemma request_unparsable_json_witness :
  request Desk.flaky Toy.session "GET" "/users/me/calendarList" JNull JNull
    CALENDAR_BASE_URL Toy.world0 =
    (inl (JSONDecodeError "<html>"),
     after_call "GET" "/users/me/calendarList" JNull JNull CALENDAR_BASE_URL
       Toy.world0).
Proof.
  refine (request_unparsable_json Desk.flaky Toy.session "GET"
            "/users/me/calendarList" JNull JNull CALENDAR_BASE_URL Toy.world0
            {| status_code := 502; content_type := Some "application/json";
               text := "<html>" |}
            (JSONDecodeError "<html>") eq_refl _ eq_refl eq_refl).
  discriminate.
Defined.

(** ** Overrides and assembly in the body-taking commands *)

Lemma titled_body_override args fields v w :
  v <> JNull -> titled_body args fields v w = (inr v, w).
Proof. intros Hv. unfold titled_body. now destruct v. Qed.

Lemma supplies_null env text raw path w :
  json_loads env text = inr JNull ->
  supplies text raw path w ->
  load_json_input env raw path w = (inr JNull, w).
Proof.
  intros Hnull [(-> & Htext & Hpath) | (Hraw & p & -> & Hp & Hfile)].
  - rewrite load_json_input_inline by assumption. now rewrite Hnull.
  - rewrite (load_json_input_file env raw p text) by assumption.
    now rewrite Hnull.
Qed.

Section BodyTakingCommands.

Variable env : Collaborators.
Variable float_truthy : string -> bool.

(** The two event commands on an override. *)
Lemma event_commands_on_override args w session w1 v w2 :
  session_from_token env (Args.token (UpdateArgs.event args))
    (Args.scopes (UpdateArgs.event args)) w = (inr session, w1) ->
  load_json_input env (Args.body (UpdateArgs.event args))
    (Args.body_file (UpdateArgs.event args)) w1 = (inr v, w2) ->
  v <> JNull ->
  cmd_create_event env (UpdateArgs.event args) w =
    request env session "POST" (events_path (UpdateArgs.event args))
      (send_updates_params (UpdateArgs.event args)) v CALENDAR_BASE_URL w2
  /\ cmd_update_event env float_truthy args w =
       if py_truth float_truthy v
       then request env session "PATCH"
              (event_path (Args.calendar_id (UpdateArgs.event args))
                 (UpdateArgs.event_id args))
              (send_updates_params (UpdateArgs.event args)) v
              CALENDAR_BASE_URL w2
       else (inl no_update_fields, w2).
Proof.
  intros Hsession Hinput Hv. split.
  - rewrite (cmd_create_event_after_inputs env _ w session w1 v w2)
      by assumption.
    unfold bind. now rewrite create_event_body_override.
  - unfold cmd_update_event.
    rewrite (bind_ok _ _ _ _ _ Hsession), (bind_ok _ _ _ _ _ Hinput).
    pose proof (update_body_override float_truthy
                  (update_event_fields (UpdateArgs.event args)) v w2 Hv) as Hb.
    destruct (py_truth float_truthy v).
    + now rewrite (bind_ok _ _ _ _ _ Hb).
    + now rewrite (bind_err _ _ _ _ _ Hb).
Qed.

(** The two event commands when the resolver answered [None]. *)
Lemma event_commands_on_absent args w session w1 w2 :
  session_from_token env (Args.token (UpdateArgs.event args))
    (Args.scopes (UpdateArgs.event args)) w = (inr session, w1) ->
  load_json_input env (Args.body (UpdateArgs.event args))
    (Args.body_file (UpdateArgs.event args)) w1 = (inr JNull, w2) ->
  cmd_create_event env (UpdateArgs.event args) w =
    (if truthy (Args.summary (UpdateArgs.event args))
        && truthy (Args.start (UpdateArgs.event args))
        && truthy (Args.end_ (UpdateArgs.event args))
     then request env session "POST" (events_path (UpdateArgs.event args))
            (send_updates_params (UpdateArgs.event args))
            (JObj (event_body_from_args (UpdateArgs.event args)))
            CALENDAR_BASE_URL w2
     else (inl summary_start_end_required, w2))
  /\ cmd_update_event env float_truthy args w =
       (if truthy (Args.summary (UpdateArgs.event args))
           || truthy (Args.start (UpdateArgs.event args))
           || truthy (Args.end_ (UpdateArgs.event args))
           || truthy (Args.location (UpdateArgs.event args))
           || truthy (Args.description (UpdateArgs.event args))
           || truthy (Args.attendees (UpdateArgs.event args))
           || nonempty_list (Args.recurrence (UpdateArgs.event args))
        then request env session "PATCH"
               (event_path (Args.calendar_id (UpdateArgs.event args))
                  (UpdateArgs.event_id args))
               (send_updates_params (UpdateArgs.event args))
               (JObj (update_event_fields (UpdateArgs.event args)))
               CALENDAR_BASE_URL w2
        else (inl no_update_fields, w2)).
Proof.
  intros Hsession Hinput. split.
  - rewrite (cmd_create_event_after_inputs env _ w session w1 JNull w2)
      by assumption.
    unfold bind. rewrite create_event_body_absent.
    now destruct (truthy (Args.summary (UpdateArgs.event args))
                  && truthy (Args.start (UpdateArgs.event args))
                  && truthy (Args.end_ (UpdateArgs.event args))).
  - unfold cmd_update_event.
    rewrite (bind_ok _ _ _ _ _ Hsession), (bind_ok _ _ _ _ _ Hinput).
    pose proof (update_body_absent float_truthy
                  (update_event_fields (UpdateArgs.event args)) w2) as Hb.
    rewrite update_event_fields_nonempty in Hb.
    destruct (truthy (Args.summary (UpdateArgs.event args))
              || truthy (Args.start (UpdateArgs.event args))
              || truthy (Args.end_ (UpdateArgs.event args))
              || truthy (Args.location (UpdateArgs.event args))
              || truthy (Args.description (UpdateArgs.event args))
              || truthy (Args.attendees (UpdateArgs.event args))
              || nonempty_list (Args.recurrence (UpdateArgs.event args))).
    + now rewrite (bind_ok _ _ _ _ _ Hb).
    + now rewrite (bind_err _ _ _ _ _ Hb).
Qed.

(** The four task and task-list commands on an override. *)
Lemma task_commands_on_override args w session w1 v w2 :
  session_from_token env (TaskArgs.token args) (TaskArgs.scopes args) w
    = (inr session, w1) ->
  load_json_input env (TaskArgs.body args) (TaskArgs.body_file args) w1
    = (inr v, w2) ->
  v <> JNull ->
  cmd_create_tasklist env args w =
    request env session "POST" "/users/@me/lists" JNull v TASKS_BASE_URL w2
  /\ cmd_update_tasklist env float_truthy args w =
       (if py_truth float_truthy v
        then request env session "PATCH"
               (tasklist_path (TaskArgs.tasklist args)) JNull v
               TASKS_BASE_URL w2
        else (inl no_update_fields, w2))
  /\ cmd_create_task env args w =
       request env session "POST" (tasks_path (TaskArgs.tasklist args))
         (JObj (task_position_params args)) v TASKS_BASE_URL w2
  /\ cmd_update_task env float_truthy args w =
       (if py_truth float_truthy v
        then request env session "PATCH"
               (task_path (TaskArgs.tasklist args) (TaskArgs.task_id args))
               JNull v TASKS_BASE_URL w2
        else (inl no_update_fields, w2)).
Proof.
  intros Hsession Hinput Hv.
  unfold cmd_create_tasklist, cmd_update_tasklist, cmd_create_task,
    cmd_update_task.
  rewrite !(bind_ok _ _ _ _ _ Hsession), !(bind_ok _ _ _ _ _ Hinput).
  pose proof (fun fields => titled_body_override args fields v w2 Hv) as Ht.
  pose proof (fun fields => update_body_override float_truthy fields v w2 Hv)
    as Hu.
  split; [| split; [| split]].
  - now rewrite (bind_ok _ _ _ _ _ (Ht _)).
  - specialize (Hu (set_if (truthy (TaskArgs.title args)) "title"
                      (of_opt_str (TaskArgs.title args)) [])).
    destruct (py_truth float_truthy v).
    + now rewrite (bind_ok _ _ _ _ _ Hu).
    + now rewrite (bind_err _ _ _ _ _ Hu).
  - now rewrite (bind_ok _ _ _ _ _ (Ht _)).
  - specialize (Hu (task_body_from_args args)).
    destruct (py_truth float_truthy v).
    + now rewrite (bind_ok _ _ _ _ _ Hu).
    + now rewrite (bind_err _ _ _ _ _ Hu).
Qed.

(** The four task and task-list commands when the resolver answered
    [None]. *)
Lemma task_commands_on_absent args w session w1 w2 :
  session_from_token env (TaskArgs.token args) (TaskArgs.scopes args) w
    = (inr session, w1) ->
  load_json_input env (TaskArgs.body args) (TaskArgs.body_file args) w1
    = (inr JNull, w2) ->
  cmd_create_tasklist env args w =
    (if truthy (TaskArgs.title args)
     then request env session "POST" "/users/@me/lists" JNull
            (JObj [("title", of_opt_str (TaskArgs.title args))])
            TASKS_BASE_URL w2
     else (inl title_required, w2))
  /\ cmd_update_tasklist env float_truthy args w =
       (if truthy (TaskArgs.title args)
        then request env session "PATCH"
               (tasklist_path (TaskArgs.tasklist args)) JNull
               (JObj [("title", of_opt_str (TaskArgs.title args))])
               TASKS_BASE_URL w2
        else (inl no_update_fields, w2))
  /\ cmd_create_task env args w =
       (if truthy (TaskArgs.title args)
        then request env session "POST" (tasks_path (TaskArgs.tasklist args))
               (JObj (task_position_params args))
               (JObj (task_body_from_args args)) TASKS_BASE_URL w2
        else (inl title_required, w2))
  /\ cmd_update_task env float_truthy args w =
       (if truthy (TaskArgs.title args) || truthy (TaskArgs.notes args)
           || truthy (TaskArgs.due args) || truthy (TaskArgs.status args)
           || truthy (TaskArgs.completed args)
        then request env session "PATCH"
               (task_path (TaskArgs.tasklist args) (TaskArgs.task_id args))
               JNull (JObj (task_body_from_args args)) TASKS_BASE_URL w2
        else (inl no_update_fields, w2)).
Proof.
  intros Hsession Hinput.
  unfold cmd_create_tasklist, cmd_update_tasklist, cmd_create_task,
    cmd_update_task.
  rewrite !(bind_ok _ _ _ _ _ Hsession), !(bind_ok _ _ _ _ _ Hinput).
  pose proof (fun fields => titled_body_absent args fields w2) as Ht.
  pose proof (fun fields => update_body_absent float_truthy fields w2) as Hu.
  split; [| split; [| split]].
  - specialize (Ht [("title", of_opt_str (TaskArgs.title args))]).
    destruct (truthy (TaskArgs.title args)).
    + now rewrite (bind_ok _ _ _ _ _ Ht).
    + now rewrite (bind_err _ _ _ _ _ Ht).
  - specialize (Hu (set_if (truthy (TaskArgs.title args)) "title"
                      (of_opt_str (TaskArgs.title args)) [])).
    destruct (truthy (TaskArgs.title args)); cbn [set_if dict_set] in *.
    + now rewrite (bind_ok _ _ _ _ _ Hu).
    + now rewrite (bind_err _ _ _ _ _ Hu).
  - specialize (Ht (task_body_from_args args)).
    destruct (truthy (TaskArgs.title args)).
    + now rewrite (bind_ok _ _ _ _ _ Ht).
    + now rewrite (bind_err _ _ _ _ _ Ht).
  - specialize (Hu (task_body_from_args args)).
    rewrite task_body_from_args_nonempty in Hu.
    destruct (truthy (TaskArgs.title args) || truthy (TaskArgs.notes args)
              || truthy (TaskArgs.due args) || truthy (TaskArgs.status args)
              || truthy (TaskArgs.completed args)).
    + now rewrite (bind_ok _ _ _ _ _ Hu).
    + now rewrite (bind_err _ _ _ _ _ Hu).
Qed.

End BodyTakingCommands.

(** C5, as stated, fails: an update given the inline body [{}] does not
    pass it through: the command ends with the no-fields error and sends
    nothing. *)
Lemma empty_object_refused_by_update_counterexample :
  json_loads Toy.env "{}" = inr (JObj [])
  /\ cmd_update_event Toy.env Desk.float_truthy (Desk.emptied "/tok/live")
       Toy.world0 = (inl no_update_fields, Toy.world0)
  /\ network_calls
       (snd (cmd_update_event Toy.env Desk.float_truthy
               (Desk.emptied "/tok/live") Toy.world0)) = [].
Proof. repeat split; vm_compute; reflexivity. Qed.

(** C5, amended: with neither source supplied the resolver answers [None],
    which is not the empty object, and in every body-taking command the
    body is assembled from the structured fields exactly when the resolver
    answered [None].  Any other answer, the empty object of an inline [{}]
    included, is never replaced by assembled fields: the creation commands
    send it as the body as it is, and the update commands send it as it is
    when it is true as a Python value and refuse it with the no-fields
    error when it is false, as [{}] is. *)
Theorem absent_input_alone_triggers_assembly env float_truthy :
  (forall raw path w,
     truthy raw = false -> truthy path = false ->
     load_json_input env raw path w = (inr JNull, w))
  /\ JNull <> JObj []
  /\ (forall args w session w1 v w2,
        session_from_token env (Args.token (UpdateArgs.event args))
          (Args.scopes (UpdateArgs.event args)) w = (inr session, w1) ->
        load_json_input env (Args.body (UpdateArgs.event args))
          (Args.body_file (UpdateArgs.event args)) w1 = (inr v, w2) ->
        v <> JNull ->
        cmd_create_event env (UpdateArgs.event args) w =
          request env session "POST" (events_path (UpdateArgs.event args))
            (send_updates_params (UpdateArgs.event args)) v
            CALENDAR_BASE_URL w2
        /\ cmd_update_event env float_truthy args w =
             if py_truth float_truthy v
             then request env session "PATCH"
                    (event_path (Args.calendar_id (UpdateArgs.event args))
                       (UpdateArgs.event_id args))
                    (send_updates_params (UpdateArgs.event args)) v
                    CALENDAR_BASE_URL w2
             else (inl no_update_fields, w2))
  /\ (forall args w session w1 v w2,
        session_from_token env (TaskArgs.token args) (TaskArgs.scopes args) w
          = (inr session, w1) ->
        load_json_input env (TaskArgs.body args) (TaskArgs.body_file args) w1
          = (inr v, w2) ->
        v <> JNull ->
        cmd_create_tasklist env args w =
          request env session "POST" "/users/@me/lists" JNull v
            TASKS_BASE_URL w2
        /\ cmd_update_tasklist env float_truthy args w =
             (if py_truth float_truthy v
              then request env session "PATCH"
                     (tasklist_path (TaskArgs.tasklist args)) JNull v
                     TASKS_BASE_URL w2
              else (inl no_update_fields, w2))
        /\ cmd_create_task env args w =
             request env session "POST" (tasks_path (TaskArgs.tasklist args))
               (JObj (task_position_params args)) v TASKS_BASE_URL w2
        /\ cmd_update_task env float_truthy args w =
             (if py_truth float_truthy v
              then request env session "PATCH"
                     (task_path (TaskArgs.tasklist args)
                        (TaskArgs.task_id args))
                     JNull v TASKS_BASE_URL w2
              else (inl no_update_fields, w2)))
  /\ (forall args w session w1 w2,
        session_from_token env (Args.token (UpdateArgs.event args))
          (Args.scopes (UpdateArgs.event args)) w = (inr session, w1) ->
        load_json_input env (Args.body (UpdateArgs.event args))
          (Args.body_file (UpdateArgs.event args)) w1 = (inr JNull, w2) ->
        cmd_create_event env (UpdateArgs.event args) w =
          (if truthy (Args.summary (UpdateArgs.event args))
              && truthy (Args.start (UpdateArgs.event args))
              && truthy (Args.end_ (UpdateArgs.event args))
           then request env session "POST"
                  (events_path (UpdateArgs.event args))
                  (send_updates_params (UpdateArgs.event args))
                  (JObj (event_body_from_args (UpdateArgs.event args)))
                  CALENDAR_BASE_URL w2
           else (inl summary_start_end_required, w2))
        /\ cmd_update_event env float_truthy args w =
             (if truthy (Args.summary (UpdateArgs.event args))
                 || truthy (Args.start (UpdateArgs.event args))
                 || truthy (Args.end_ (UpdateArgs.event args))
                 || truthy (Args.location (UpdateArgs.event args))
                 || truthy (Args.description (UpdateArgs.event args))
                 || truthy (Args.attendees (UpdateArgs.event args))
                 || nonempty_list (Args.recurrence (UpdateArgs.event args))
              then request env session "PATCH"
                     (event_path (Args.calendar_id (UpdateArgs.event args))
                        (UpdateArgs.event_id args))
                     (send_updates_params (UpdateArgs.event args))
                     (JObj (update_event_fields (UpdateArgs.event args)))
                     CALENDAR_BASE_URL w2
              else (inl no_update_fields, w2)))
  /\ (forall args w session w1 w2,
        session_from_token env (TaskArgs.token args) (TaskArgs.scopes args) w
          = (inr session, w1) ->
        load_json_input env (TaskArgs.body args) (TaskArgs.body_file args) w1
          = (inr JNull, w2) ->
        cmd_create_tasklist env args w =
          (if truthy (TaskArgs.title args)
           then request env session "POST" "/users/@me/lists" JNull
                  (JObj [("title", of_opt_str (TaskArgs.title args))])
                  TASKS_BASE_URL w2
           else (inl title_required, w2))
        /\ cmd_update_tasklist env float_truthy args w =
             (if truthy (TaskArgs.title args)
              then request env session "PATCH"
                     (tasklist_path (TaskArgs.tasklist args)) JNull
                     (JObj [("title", of_opt_str (TaskArgs.title args))])
                     TASKS_BASE_URL w2
              else (inl no_update_fields, w2))
        /\ cmd_create_task env args w =
             (if truthy (TaskArgs.title args)
              then request env session "POST"
                     (tasks_path (TaskArgs.tasklist args))
                     (JObj (task_position_params args))
                     (JObj (task_body_from_args args)) TASKS_BASE_URL w2
              else (inl title_required, w2))
        /\ cmd_update_task env float_truthy args w =
             (if truthy (TaskArgs.title args) || truthy (TaskArgs.notes args)
                 || truthy (TaskArgs.due args) || truthy (TaskArgs.status args)
                 || truthy (TaskArgs.completed args)
              then request env session "PATCH"
                     (task_path (TaskArgs.tasklist args)
                        (TaskArgs.task_id args))
                     JNull (JObj (task_body_from_args args)) TASKS_BASE_URL w2
              else (inl no_update_fields, w2))).
Proof.
  split; [exact (load_json_input_absent env) |].
  split; [discriminate |].
  split; [exact (event_commands_on_override env float_truthy) |].
  split; [exact (task_commands_on_override env float_truthy) |].
  split; [exact (event_commands_on_absent env float_truthy) |].
  exact (task_commands_on_absent env float_truthy).
Qed.

Lemma absent_input_alone_triggers_assembly_witness :
  cmd_create_event Toy.env (UpdateArgs.event (Desk.emptied "/tok/live"))
    Toy.world0 =
    request Toy.env Toy.session "POST" "/calendars/primary/events" JNull
      (JObj []) CALENDAR_BASE_URL Toy.world0
  /\ cmd_update_event Toy.env Desk.float_truthy (Desk.emptied "/tok/live")
       Toy.world0 = (inl no_update_fields, Toy.world0).
Proof.
  refine (proj1 (proj2 (proj2 (absent_input_alone_triggers_assembly Toy.env
                                 Desk.float_truthy)))
            (Desk.emptied "/tok/live") Toy.world0 Toy.session Toy.world0
            (JObj []) Toy.world0 eq_refl eq_refl _).
  discriminate.
Defined.

(** C10: a text that parses to JSON [null], given inline or in a file, gets
    from the resolver the answer it gives when nothing is supplied, and
    every body-taking command then does what it does without override: it
    assembles the body from the structured fields and runs its check, the
    required fields for a creation and the non-empty body for an update,
    although an override was given. *)
Theorem null_input_is_absent env float_truthy text :
  json_loads env text = inr JNull ->
  (forall w, nonempty text = true ->
             load_json_input env (Some text) None w =
               load_json_input env None None w)
  /\ (forall w path, nonempty path = true -> files w !! path = Some text ->
                     load_json_input env None (Some path) w =
                       load_json_input env None None w)
  /\ (forall w args,
        nonempty text = true -> Args.body args = Some text ->
        truthy (Args.body_file args) = false ->
        cmd_create_event env args w =
          cmd_create_event env (Args.with_body None args) w)
  /\ (forall args w session w1,
        session_from_token env (Args.token (UpdateArgs.event args))
          (Args.scopes (UpdateArgs.event args)) w = (inr session, w1) ->
        supplies text (Args.body (UpdateArgs.event args))
          (Args.body_file (UpdateArgs.event args)) w1 ->
        cmd_create_event env (UpdateArgs.event args) w =
          (if truthy (Args.summary (UpdateArgs.event args))
              && truthy (Args.start (UpdateArgs.event args))
              && truthy (Args.end_ (UpdateArgs.event args))
           then request env session "POST"
                  (events_path (UpdateArgs.event args))
                  (send_updates_params (UpdateArgs.event args))
                  (JObj (event_body_from_args (UpdateArgs.event args)))
                  CALENDAR_BASE_URL w1
           else (inl summary_start_end_required, w1))
        /\ cmd_update_event env float_truthy args w =
             (if truthy (Args.summary (UpdateArgs.event args))
                 || truthy (Args.start (UpdateArgs.event args))
                 || truthy (Args.end_ (UpdateArgs.event args))
                 || truthy (Args.location (UpdateArgs.event args))
                 || truthy (Args.description (UpdateArgs.event args))
                 || truthy (Args.attendees (UpdateArgs.event args))
                 || nonempty_list (Args.recurrence (UpdateArgs.event args))
              then request env session "PATCH"
                     (event_path (Args.calendar_id (UpdateArgs.event args))
                        (UpdateArgs.event_id args))
                     (send_updates_params (UpdateArgs.event args))
                     (JObj (update_event_fields (UpdateArgs.event args)))
                     CALENDAR_BASE_URL w1
              else (inl no_update_fields, w1)))
  /\ (forall args w session w1,
        session_from_token env (TaskArgs.token args) (TaskArgs.scopes args) w
          = (inr session, w1) ->
        supplies text (TaskArgs.body args) (TaskArgs.body_file args) w1 ->
        cmd_create_tasklist env args w =
          (if truthy (TaskArgs.title args)
           then request env session "POST" "/users/@me/lists" JNull
                  (JObj [("title", of_opt_str (TaskArgs.title args))])
                  TASKS_BASE_URL w1
           else (inl title_required, w1))
        /\ cmd_update_tasklist env float_truthy args w =
             (if truthy (TaskArgs.title args)
              then request env session "PATCH"
                     (tasklist_path (TaskArgs.tasklist args)) JNull
                     (JObj [("title", of_opt_str (TaskArgs.title args))])
                     TASKS_BASE_URL w1
              else (inl no_update_fields, w1))
        /\ cmd_create_task env args w =
             (if truthy (TaskArgs.title args)
              then request env session "POST"
                     (tasks_path (TaskArgs.tasklist args))
                     (JObj (task_position_params args))
                     (JObj (task_body_from_args args)) TASKS_BASE_URL w1
              else (inl title_required, w1))
        /\ cmd_update_task env float_truthy args w =
             (if truthy (TaskArgs.title args) || truthy (TaskArgs.notes args)
                 || truthy (TaskArgs.due args) || truthy (TaskArgs.status args)
                 || truthy (TaskArgs.completed args)
              then request env session "PATCH"
                     (task_path (TaskArgs.tasklist args)
                        (TaskArgs.task_id args))
                     JNull (JObj (task_body_from_args args)) TASKS_BASE_URL w1
              else (inl no_update_fields, w1))).
Proof.
  intros Hnull.
  assert (Hnone : forall w, load_json_input env None None w = (inr JNull, w))
    by (intros w; now apply load_json_input_absent).
  split; [| split; [| split; [| split]]].
  - intros w Htext. rewrite Hnone, load_json_input_inline by easy.
    now rewrite Hnull.
  - intros w path Hpath Hfile.
    rewrite Hnone, (load_json_input_file env None path text) by easy.
    now rewrite Hnull.
  - intros w args Htext Hbody Hfile.
    rewrite !cmd_create_event_steps.
    cbn [Args.with_body Args.token Args.scopes Args.body Args.body_file].
    destruct (session_from_token env (Args.token args) (Args.scopes args) w)
      as [[e | session] w1]; [reflexivity |].
    rewrite Hbody, load_json_input_inline by assumption.
    rewrite Hnull, load_json_input_absent by easy.
    reflexivity.
  - intros args w session w1 Hsession Hgiven.
    apply (event_commands_on_absent env float_truthy args w session w1 w1);
      [assumption | now apply (supplies_null env text)].
  - intros args w session w1 Hsession Hgiven.
    apply (task_commands_on_absent env float_truthy args w session w1 w1);
      [assumption | now apply (supplies_null env text)].
Qed.

Lemma null_input_is_absent_witness :
  cmd_create_event Toy.env (UpdateArgs.event (Desk.nulled "/tok/live"))
    Toy.world0 = (inl summary_start_end_required, Toy.world0)
  /\ cmd_update_event Toy.env Desk.float_truthy (Desk.nulled "/tok/live")
       Toy.world0 = (inl no_update_fields, Toy.world0)
  /\ cmd_update_event Toy.env Desk.float_truthy (Desk.null_file "/tok/live")
       Toy.world0 =
       request Toy.env Toy.session "PATCH" "/calendars/primary/events/ev1"
         JNull (JObj [("summary", JStr "Retro")]) CALENDAR_BASE_URL Toy.world0.
Proof.
  split; [| split].
  - refine (proj1 (proj1 (proj2 (proj2 (proj2
              (null_input_is_absent Toy.env Desk.float_truthy "null" eq_refl))))
              (Desk.nulled "/tok/live") Toy.world0 Toy.session Toy.world0
              eq_refl _)).
    left. repeat split.
  - refine (proj2 (proj1 (proj2 (proj2 (proj2
              (null_input_is_absent Toy.env Desk.float_truthy "null" eq_refl))))
              (Desk.nulled "/tok/live") Toy.world0 Toy.session Toy.world0
              eq_refl _)).
    left. repeat split.
  - refine (proj2 (proj1 (proj2 (proj2 (proj2
              (null_input_is_absent Toy.env Desk.float_truthy "null" eq_refl))))
              (Desk.null_file "/tok/live") Toy.world0 Toy.session Toy.world0
              eq_refl _)).
    right. split; [reflexivity |].
    exists "/in/null.json". repeat split.
Defined.
